(** * Prediction-result normalisation, history and entitlement polling

    A shallow embedding of the client-side logic of the React frontend:
    - [services/predictionAPI.ts]: [getPrediction], [getUserPredictions];
    - [config/models.ts]: the static model registry;
    - [components/PredictionForm.tsx]: the allowed-modes fetch;
    - [contexts/EntitlementsContext.tsx]: the 30-second entitlement poll;
    - [components/UserPredictions.tsx]: the history view.

    Asynchronous functions are modelled by their outcome: the events they
    emit (console lines, outbound requests) and the value they resolve to
    or the exception they reject with.  The network is an oracle from
    requests to outcomes. *)

From Stdlib Require Import ZArith QArith List Sorting.Sorted Sorting.Permutation Lia.
From stdpp Require Import base gmap strings list.

Set Warnings "-register-all".
Local Open Scope Z_scope.

(** ** JavaScript values, as produced by [JSON.parse] *)

Module JS.

(** A parsed JSON value; [VUndefined] is what reading a missing property
    gives.  Numbers are the rationals written in the JSON text: the code
    modelled here copies and compares them, it never computes with them. *)
Inductive value : Type :=
| VUndefined
| VNull
| VBool (b : bool)
| VNum (q : Q)
| VStr (s : string)
| VArr (l : list value)
| VObj (o : gmap string value).

(** ToBoolean, as applied by [||], [!], [if] and [?:].  JSON has no NaN. *)
Definition truthy (v : value) : bool :=
  match v with
  | VUndefined | VNull => false
  | VBool b => b
  | VNum q => negb (Qeq_bool q 0)
  | VStr s => negb (String.eqb s "")
  | VArr _ | VObj _ => true
  end.

(** [v !== undefined] *)
Definition defined (v : value) : bool :=
  match v with
  | VUndefined => false
  | _ => true
  end.

(** [v === s] for a string [s] *)
Definition is_str (v : value) (s : string) : bool :=
  match v with
  | VStr s' => String.eqb s' s
  | _ => false
  end.

(** [a || b] *)
Definition or_else (a b : value) : value := if truthy a then a else b.

(** Reading [v.k], for the property names this program reads (none of
    them is a built-in property of strings, arrays or [Object.prototype]).
    Total: on [null] and [undefined], where the read raises a TypeError,
    it gives [VUndefined]; [get] below is the raising version. *)
Definition prop (v : value) (k : string) : value :=
  match v with
  | VObj o => default VUndefined (o !! k)
  | _ => VUndefined
  end.

(** Does [null] or [undefined] stand where an object is read from? *)
Definition nullish (v : value) : bool :=
  match v with
  | VUndefined | VNull => true
  | _ => false
  end.

(** ToString inside a template literal raises a TypeError on an object
    whose own [toString] property shadows [Object.prototype.toString]
    (a JSON value is never callable, and the inherited [valueOf] returns
    the object itself).  An array joins the strings of its elements. *)
Fixpoint to_string_throws (v : value) : bool :=
  match v with
  | VObj o => bool_decide (is_Some (o !! "toString"))
  | VArr l => existsb to_string_throws l
  | _ => false
  end.

End JS.

(** ** The static model registry, [config/models.ts] *)

Module Models.

Inductive Tier : Type := free | premium.

Record PredictionModel : Type := {
  id : string;
  alias : string;
  port : Z;
  apiUrl : string;
  tier : Tier;
  description : string
}.

Definition BASE_URL : string := "http://localhost".

Definition PREDICTION_MODELS : list PredictionModel :=
  [ {| id := "lr"; alias := "Quick Pick"; port := 8001;
       apiUrl := BASE_URL +:+ ":8001/predict"; tier := free;
       description := "Fast baseline prediction." |};
    {| id := "lgbm"; alias := "Form Cruncher"; port := 8002;
       apiUrl := BASE_URL +:+ ":8002/predict"; tier := free;
       description := "Balanced performance model." |};
    {| id := "transformer"; alias := "Deep Dive"; port := 8004;
       apiUrl := BASE_URL +:+ ":8004/predict"; tier := premium;
       description := "Context-aware transformer model." |};
    {| id := "stacker"; alias := "Stacked"; port := 8003;
       apiUrl := BASE_URL +:+ ":8003/predict"; tier := premium;
       description := "Ensemble model for higher accuracy." |};
    {| id := "rl"; alias := "Edge Finder"; port := 8006;
       apiUrl := BASE_URL +:+ ":8006/predict"; tier := premium;
       description := "Reinforcement learning agent." |} ].

Definition DEFAULT_MODEL_ALIAS : string := "Quick Pick".

(** [PREDICTION_MODELS.find(model => model.alias === alias)] *)
Definition getModelByAlias (a : string) : option PredictionModel :=
  List.find (fun model => String.eqb (alias model) a) PREDICTION_MODELS.

End Models.

(** ** Requests, responses and the effects of an asynchronous function *)

Module Net.
Import JS.

(** [PredictionRequestPayload] of [types/index.ts] *)
Record PredictionRequestPayload : Type := {
  team_a : string;
  team_b : string;
  match_date_str : string;
  odd_a : option Q;
  odd_b : option Q;
  odds_home_win : option Q;
  odds_away_win : option Q
}.

Record request : Type := {
  url : string;
  method : string;
  headers : list (string * string);
  body : option PredictionRequestPayload
}.

(** What the code reads of a [Response]: [json] is [None] when the body
    is not JSON, so that [response.json()] rejects. *)
Record response : Type := {
  status : Z;
  statusText : string;
  json : option value
}.

(** [response.ok]: the status is in the range 200-299. *)
Definition ok (r : response) : bool := (200 <=? status r) && (status r <=? 299).

Inductive outcome : Type :=
| Rejected
| Responded (r : response).

(** The network, seen from the client. *)
Definition world : Type := request -> outcome.

(** Exceptions. *)
Inductive exn : Type :=
| ConfigurationError (modelAlias : string)
| ApiRequestFailed (st : Z) (text : string) (detail : value)
| TypeError
| SyntaxError
| FetchFailed
| TokenError.

End Net.

(** ** [services/predictionAPI.ts] *)

Module PredictionAPI.
Import JS Net.

(** [PredictionResult] of [types/index.ts], restricted to the properties
    the two producers write.  A property the producer leaves out reads as
    [VUndefined], like one it sets to [undefined]. *)
Record PredictionResult : Type := {
  predicted_winner : value;
  confidence : value;
  margin : value;
  model_alias : value;
  prediction_id : value;
  match_date : value;
  home_team_name : value;
  away_team_name : value;
  prediction_timestamp : value
}.

Inductive level : Type := Log | Info | Warn | Error.

(** The console lines of the modelled files, one constructor per call
    site, with the values interpolated into the line. *)
Inductive message : Type :=
| SendingPredictionRequest (apiUrl : string) (payload : PredictionRequestPayload)
| IncludingAuthorizationHeader (modelAlias : string)
| NoIdTokenProvided (modelAlias : string)
| ApiErrorResponse (errorBody : value)
| UsingFallbackWinnerConfidence
| UsingFallbackOverallConfidence
| UsingFallbackGenericConfidence
| CouldNotDetermineConfidence (winner : value)
| MissingAliasAndName
| BackendReturnedAlias (backend : value) (requested : string)
| BackendModelNameDiffers (backend : value) (requested : string)
| ProcessedPredictionResponse (resultData : PredictionResult)
| NetworkOrApiCallError (e : exn)
| FetchingUserPredictions (userServiceUrl : string)
| ApiErrorResponseUserPredictions (errorBody : value)
| CouldNotDetermineConfidenceForId (prediction_id : value)
| FetchedUserPredictions (n : nat)
| ErrorFetchingUserPredictions (e : exn)
| NotAuthorizedForPremiumModes
| FailedToFetchAllowedModes (st : Z)
| ErrorFetchingAllowedModes (e : exn)
| ErrorFetchingUserPredictionsView (e : exn).

Inductive event : Type :=
| Console (l : level) (m : message)
| Fetch (r : request)
| UnhandledRejection (e : exn).

(** An effectful computation: the events emitted, in order, and the
    value returned or the exception raised. *)
Definition M (A : Type) : Type := list event * (exn + A).

Definition ret {A : Type} (a : A) : M A := ([], inr a).

Definition throw {A : Type} (e : exn) : M A := ([], inl e).

Definition bind {A B : Type} (m : M A) (k : A -> M B) : M B :=
  match m with
  | (t, inl e) => (t, inl e)
  | (t, inr a) => let (t', r) := k a in (t ++ t', r)
  end.

(** [try { m } catch (e) { h e }] *)
Definition try_catch {A : Type} (m : M A) (h : exn -> M A) : M A :=
  match m with
  | (t, inl e) => let (t', r) := h e in (t ++ t', r)
  | (t, inr a) => (t, inr a)
  end.

Declare Scope js_scope.
Delimit Scope js_scope with js.
Notation "x <- m ;; k" := (bind m (fun x => k))
  (at level 100, m at next level, right associativity) : js_scope.
Notation "m ;; k" := (bind m (fun _ => k))
  (at level 100, right associativity) : js_scope.
Local Open Scope js_scope.

Definition console (l : level) (m : message) : M unit := ([Console l m], inr tt).

(** [await fetch(...)] *)
Definition fetch (w : world) (r : request) : M response :=
  ([Fetch r], match w r with
              | Rejected => inl FetchFailed
              | Responded resp => inr resp
              end).

(** [await response.json()] *)
Definition response_json (r : response) : M value :=
  match json r with
  | Some v => ret v
  | None => throw SyntaxError
  end.

(** [v.k], raising on [null] and [undefined] *)
Definition get (v : value) (k : string) : M value :=
  if nullish v then throw TypeError else ret (prop v k).

(** A value interpolated into a template literal. *)
Definition interpolate (v : value) : M unit :=
  if to_string_throws v then throw TypeError else ret tt.

(** The outcome and the events of a computation. *)
Definition events {A : Type} (m : M A) : list event := fst m.
Definition result {A : Type} (m : M A) : exn + A := snd m.

(** Lines 42-54 and 139-148: a response that is not [ok] is turned into
    an exception carrying the status and the body's [detail]. *)
Definition check_ok (onError : value -> message) (r : response) : M unit :=
  if negb (ok r) then
    let errorBody := match json r with Some v => v | None => VNull end in
    console Error (onError errorBody) ;;
    let detail := or_else (prop errorBody "detail") (VStr "No additional details.") in
    interpolate detail ;;
    throw (ApiRequestFailed (status r) (statusText r) detail)
  else ret tt.

(** Lines 59-90 of [getPrediction]: the winner and its confidence. *)
Definition determine_confidence (rawData : value) : M (value * value) :=
  winner <- get rawData "predicted_winner" ;;
  let field := prop rawData in
  confidence <-
    (if is_str winner "Home" && defined (field "prob_home_rl") then
       ret (field "prob_home_rl")
     else if is_str winner "Away" && defined (field "prob_away_rl") then
       ret (field "prob_away_rl")
     else if is_str winner "Draw" && defined (field "prob_draw_rl") then
       ret (field "prob_draw_rl")
     else if is_str winner "Home Win" && defined (field "prob_home_win") then
       ret (field "prob_home_win")
     else if is_str winner "Away Win" && defined (field "prob_away_win") then
       ret (field "prob_away_win")
     else if is_str winner "Draw" && defined (field "prob_draw") then
       ret (field "prob_draw")
     else if defined (field "winner_confidence") then
       console Warn UsingFallbackWinnerConfidence ;;
       ret (field "winner_confidence")
     else if defined (field "overall_confidence") then
       console Warn UsingFallbackOverallConfidence ;;
       ret (field "overall_confidence")
     else if defined (field "confidence") then
       console Warn UsingFallbackGenericConfidence ;;
       ret (field "confidence")
     else
       interpolate winner ;;
       console Warn (CouldNotDetermineConfidence winner) ;;
       ret (VNum 0)) ;;
  ret (winner, confidence).

(** Lines 93-101 of [getPrediction]: the alias of the result. *)
Definition finalAlias (rawData : value) (modelAlias : string) : M value :=
  let field := prop rawData in
  let alias := or_else (field "model_alias") (or_else (field "model_name") (VStr modelAlias)) in
  (if negb (truthy (field "model_alias")) && negb (truthy (field "model_name")) then
     console Warn MissingAliasAndName
   else if truthy (field "model_alias") && negb (is_str (field "model_alias") modelAlias) then
     interpolate (field "model_alias") ;;
     console Warn (BackendReturnedAlias (field "model_alias") modelAlias)
   else if truthy (field "model_name") && negb (is_str (field "model_name") modelAlias) then
     interpolate (field "model_name") ;;
     console Info (BackendModelNameDiffers (field "model_name") modelAlias)
   else ret tt) ;;
  ret alias.

(** Lines 58-112 of [getPrediction]: from the parsed body and the
    requested alias to the result shown by the UI. *)
Definition normalize (rawData : value) (modelAlias : string) : M PredictionResult :=
  wc <- determine_confidence rawData ;;
  alias <- finalAlias rawData modelAlias ;;
  ret {| predicted_winner := fst wc;
         confidence := snd wc;
         margin := prop rawData "margin";
         model_alias := alias;
         prediction_id := prop rawData "prediction_id";
         match_date := VUndefined;
         home_team_name := VUndefined;
         away_team_name := VUndefined;
         prediction_timestamp := VUndefined |}.

(** [if (idToken)]: a token that is neither [null] nor empty. *)
Definition token_given (idToken : option string) : option string :=
  match idToken with
  | Some t => if String.eqb t "" then None else Some t
  | None => None
  end.

Definition getPrediction (w : world) (payload : PredictionRequestPayload)
    (modelAlias : string) (idToken : option string) : M PredictionResult :=
  match Models.getModelByAlias modelAlias with
  | None => throw (ConfigurationError modelAlias)
  | Some model =>
    console Log (SendingPredictionRequest (Models.apiUrl model) payload) ;;
    try_catch
      (hdrs <-
         match token_given idToken with
         | Some t =>
           console Log (IncludingAuthorizationHeader modelAlias) ;;
           ret [("Content-Type", "application/json"); ("Authorization", "Bearer " +:+ t)]
         | None =>
           console Log (NoIdTokenProvided modelAlias) ;;
           ret [("Content-Type", "application/json")]
         end ;;
       response <- fetch w {| url := Models.apiUrl model; method := "POST";
                              headers := hdrs; body := Some payload |} ;;
       check_ok ApiErrorResponse response ;;
       rawData <- response_json response ;;
       resultData <- normalize rawData modelAlias ;;
       console Log (ProcessedPredictionResponse resultData) ;;
       ret resultData)
      (fun e => console Error (NetworkOrApiCallError e) ;; throw e)
  end.

Definition USER_SERVICE_BASE_URL : string := "http://localhost:8007".

(** Lines 154-193: the callback mapped over the raw history records. *)
Definition processedPrediction (rawPred : value) : M PredictionResult :=
  winner <- get rawPred "predicted_winner" ;;
  let field := prop rawPred in
  confidence <-
    (if is_str winner "Home" && defined (field "prob_home_rl") then
       ret (field "prob_home_rl")
     else if is_str winner "Away" && defined (field "prob_away_rl") then
       ret (field "prob_away_rl")
     else if is_str winner "Draw" && defined (field "prob_draw_rl") then
       ret (field "prob_draw_rl")
     else if is_str winner "Home Win" && defined (field "prob_home_win") then
       ret (field "prob_home_win")
     else if is_str winner "Away Win" && defined (field "prob_away_win") then
       ret (field "prob_away_win")
     else if is_str winner "Draw" && defined (field "prob_draw") then
       ret (field "prob_draw")
     else if defined (field "winner_confidence") then
       ret (field "winner_confidence")
     else if defined (field "overall_confidence") then
       ret (field "overall_confidence")
     else
       interpolate (field "prediction_id") ;;
       console Warn (CouldNotDetermineConfidenceForId (field "prediction_id")) ;;
       ret (VNum 0)) ;;
  ret {| predicted_winner := winner;
         confidence := confidence;
         margin := VUndefined;
         model_alias := field "model";
         prediction_id := field "prediction_id";
         match_date := field "match_date";
         home_team_name := field "home_team_name";
         away_team_name := field "away_team_name";
         prediction_timestamp := field "prediction_timestamp" |}.

(** [l.map(f)] for a callback that may raise: left to right, stopping at
    the first exception. *)
Fixpoint mapM {A B : Type} (f : A -> M B) (l : list A) : M (list B) :=
  match l with
  | [] => ret []
  | x :: l' => y <- f x ;; ys <- mapM f l' ;; ret (y :: ys)
  end.

(** [rawPredictions.map(...)]: only an array has the method. *)
Definition array_map {B : Type} (f : value -> M B) (v : value) : M (list B) :=
  match v with
  | VArr l => mapM f l
  | _ => throw TypeError
  end.

Definition getUserPredictions (w : world) (idToken : string) : M (list PredictionResult) :=
  let userServiceUrl := USER_SERVICE_BASE_URL +:+ "/users/me/predictions" in
  console Log (FetchingUserPredictions userServiceUrl) ;;
  try_catch
    (response <- fetch w {| url := userServiceUrl; method := "GET";
                            headers := [("Authorization", "Bearer " +:+ idToken);
                                        ("Content-Type", "application/json")];
                            body := None |} ;;
     check_ok ApiErrorResponseUserPredictions response ;;
     rawPredictions <- response_json response ;;
     processedPredictions <- array_map processedPrediction rawPredictions ;;
     console Log (FetchedUserPredictions (length processedPredictions)) ;;
     ret processedPredictions)
    (fun e => console Error (ErrorFetchingUserPredictions e) ;; throw e).

End PredictionAPI.

(** ** The signed-in user, [contexts/AuthContext.tsx] *)

Module Auth.
Import Net PredictionAPI.

(** What the components use of a Firebase user: [getIdToken()] resolves
    to a token or rejects. *)
Record user : Type := { idToken : option string }.

(** [await currentUser.getIdToken()] *)
Definition getIdToken (u : user) : M string :=
  match idToken u with
  | Some t => ret t
  | None => throw TokenError
  end.

End Auth.

(** ** [components/PredictionForm.tsx]: the allowed-modes fetch *)

Module PredictionForm.
Import JS Net PredictionAPI.
Local Open Scope js_scope.

(** [['Quick Pick']] *)
Definition QUICK_PICK_ONLY : value := VArr [VStr "Quick Pick"].

(** [useState<string[]>(['Quick Pick'])] *)
Definition initialAllowedModes : value := QUICK_PICK_ONLY.

(** Lines 26-46.  Every path ends in one [setAllowedModes(v)]; the
    computation returns that [v]. *)
Definition fetchAllowedModes (currentUser : option Auth.user) (w : world) : M value :=
  try_catch
    (token <- match currentUser with
              | Some u => t <- Auth.getIdToken u ;; ret (Some t)
              | None => ret None
              end ;;
     response <- fetch w {| url := "http://localhost:8007/users/me/modes";
                            method := "GET";
                            headers := match token_given token with
                                       | Some t => [("Authorization", "Bearer " +:+ t)]
                                       | None => []
                                       end;
                            body := None |} ;;
     if ok response then
       modes <- response_json response ;;
       ret modes
     else if status response =? 403 then
       console Warn NotAuthorizedForPremiumModes ;;
       ret QUICK_PICK_ONLY
     else
       console Error (FailedToFetchAllowedModes (status response)) ;;
       ret QUICK_PICK_ONLY)
    (fun e => console Error (ErrorFetchingAllowedModes e) ;; ret QUICK_PICK_ONLY).

(** The [allowedModes] state after the effect has run. *)
Definition allowedModes_after (currentUser : option Auth.user) (w : world)
    (allowedModes : value) : value :=
  match result (fetchAllowedModes currentUser w) with
  | inr v => v
  | inl _ => allowedModes
  end.

End PredictionForm.

(** ** [contexts/EntitlementsContext.tsx]: the entitlement poll *)

Module EntitlementsContext.
Import JS Net PredictionAPI.
Local Open Scope js_scope.

(** The two [useState] cells of [EntitlementsProvider], which are the
    value given to the consumers of the context. *)
Record state : Type := {
  entitlements : value;
  loading : bool
}.

Definition initial : state := {| entitlements := VArr []; loading := true |}.

(** Lines 20-27: a promise chain with no rejection handler and no test
    of [res.ok].  When a link rejects, neither setter is called. *)
Definition fetchEntitlements (w : world) (s : state) : list event * state :=
  let chain :=
    res <- fetch w {| url := "/api/stripe/entitlements"; method := "GET";
                      headers := []; body := None |} ;;
    data <- response_json res ;;
    get data "entitlements" in
  match chain with
  | (t, inr ents) => (t, {| entitlements := ents; loading := false |})
  | (t, inl e) => (t ++ [UnhandledRejection e], s)
  end.

(** Lines 29-31: the fetch on mount, then one per tick of the 30-second
    interval; [ws] is the network as each of them finds it.  Nothing
    orders the chains of different polls: the setters of a chain run
    when it settles, which may be after the chain of a later poll has.
    [order] lists the polls, by position in [ws], in the order in which
    their chains settle; a poll still pending is not in it. *)
Definition settle (ws : list world) (order : list nat) (s : state) : state :=
  fold_left (fun s i => match ws !! i with
                        | Some w => snd (fetchEntitlements w s)
                        | None => s
                        end) order s.

(** The run in which every chain settles before the next poll is sent,
    as when each answer arrives within the 30 seconds. *)
Definition polls (ws : list world) (s : state) : state :=
  fold_left (fun s w => snd (fetchEntitlements w s)) ws s.

End EntitlementsContext.

(** ** [components/UserPredictions.tsx]: the history view *)

Module UserPredictions.
Import JS Net PredictionAPI.
Local Open Scope js_scope.

Inductive view_error : Type :=
| NoError
| PleaseLogIn
| Failed (e : exn).

Record state : Type := {
  predictions : list PredictionResult;
  loading : bool;
  error : view_error
}.

Definition initial : state := {| predictions := []; loading := true; error := NoError |}.

Section Sorting.

(** [new Date(v).getTime()], a function of the runtime; [None] is NaN,
    the time of an invalid date. *)
Variable Date_getTime : value -> option Z.

(** [p.prediction_timestamp ? new Date(p.prediction_timestamp).getTime() : 0] *)
Definition date_of (p : PredictionResult) : option Z :=
  if truthy (prediction_timestamp p) then Date_getTime (prediction_timestamp p)
  else Some 0.

(** The comparator of lines 152-156, [dateB - dateA]; [None] is NaN. *)
Definition compareFn (a b : PredictionResult) : option Z :=
  match date_of a, date_of b with
  | Some dateA, Some dateB => Some (dateB - dateA)
  | _, _ => None
  end.

(** SortCompare of [Array.prototype.sort]: a NaN from the comparator
    counts as +0. *)
Definition sortCompare (a b : PredictionResult) : Z := default 0 (compareFn a b).

(** [Array.prototype.sort] is stable, and on a comparator that is
    consistent it returns the one stable arrangement in comparator
    order, whatever algorithm the runtime uses.  [compareFn] is
    consistent on the lists in which every record has a time, and there
    the sort is modelled by insertion from the right, which keeps [x]
    before the elements that followed it unless the comparator puts them
    first.  Where a comparison gives NaN the comparator is not
    consistent and the language leaves the order to the runtime: nothing
    below is stated about [sort] on such a list. *)
Fixpoint insert (x : PredictionResult) (l : list PredictionResult) : list PredictionResult :=
  match l with
  | [] => [x]
  | y :: l' => if sortCompare x y <=? 0 then x :: y :: l' else y :: insert x l'
  end.

Definition sort (l : list PredictionResult) : list PredictionResult :=
  foldr insert [] l.

(** Lines 139-164: the component-level [fetchPredictions], which sorts.
    No handler, effect or callback of the component calls it. *)
Definition fetchPredictions (currentUser : option Auth.user) (w : world) (s : state)
    : list event * state :=
  match currentUser with
  | None => ([], {| predictions := predictions s; loading := false; error := PleaseLogIn |})
  | Some u =>
    match (token <- Auth.getIdToken u ;;
           userPreds <- getUserPredictions w token ;;
           ret (sort userPreds)) with
    | (t, inr userPreds) =>
      (t, {| predictions := userPreds; loading := false; error := NoError |})
    | (t, inl err) =>
      (t ++ [Console Error (ErrorFetchingUserPredictionsView err)],
       {| predictions := predictions s; loading := false; error := Failed err |})
    end
  end.

End Sorting.

(** Lines 167-190: the [fetchPredictions] declared inside the effect,
    which shadows the one above and is the one that runs, on mount and
    when [currentUser] changes.  It stores the list as fetched. *)
Definition effect_fetchPredictions (currentUser : option Auth.user) (w : world) (s : state)
    : list event * state :=
  match currentUser with
  | None => ([], {| predictions := predictions s; loading := false; error := PleaseLogIn |})
  | Some u =>
    match (token <- Auth.getIdToken u ;;
           userPreds <- getUserPredictions w token ;;
           ret userPreds) with
    | (t, inr userPreds) =>
      (t, {| predictions := userPreds; loading := false; error := NoError |})
    | (t, inl err) =>
      (t ++ [Console Error (ErrorFetchingUserPredictionsView err)],
       {| predictions := predictions s; loading := false; error := Failed err |})
    end
  end.

(** The list the view renders after mounting for [currentUser]. *)
Definition exposed_history (currentUser : option Auth.user) (w : world)
    : list PredictionResult :=
  predictions (snd (effect_fetchPredictions currentUser w initial)).

End UserPredictions.

(** ** The statements of the specification, as executable definitions *)

Module Spec.
Import JS Net PredictionAPI.
Local Open Scope js_scope.

(** A rule of the resolution order of section 4.1: a winner label with
    the probability field it selects, or a fallback field used for any
    winner. *)
Inductive rule : Type :=
| WinnerField (label field : string)
| AnyWinner (field : string).

(** The ordered list, highest priority first. *)
Definition confidence_rules : list rule :=
  [ WinnerField "Home" "prob_home_rl";
    WinnerField "Away" "prob_away_rl";
    WinnerField "Draw" "prob_draw_rl";
    WinnerField "Home Win" "prob_home_win";
    WinnerField "Away Win" "prob_away_win";
    WinnerField "Draw" "prob_draw";
    AnyWinner "winner_confidence";
    AnyWinner "overall_confidence";
    AnyWinner "confidence" ].

Definition rule_field (r : rule) : string :=
  match r with
  | WinnerField _ f => f
  | AnyWinner f => f
  end.

(** The rule's condition: the winner label matches and the field is
    present. *)
Definition rule_holds (raw : value) (r : rule) : bool :=
  match r with
  | WinnerField l f => is_str (prop raw "predicted_winner") l && defined (prop raw f)
  | AnyWinner f => defined (prop raw f)
  end.

Definition rule_value (raw : value) (r : rule) : value := prop raw (rule_field r).

(** First match wins; no match gives 0. *)
Definition resolve (rules : list rule) (raw : value) : value :=
  match List.find (rule_holds raw) rules with
  | Some r => rule_value raw r
  | None => VNum 0
  end.

(** The fallback line logged by rules 7 to 9. *)
Definition rule_log (r : rule) : list event :=
  match r with
  | WinnerField _ _ => []
  | AnyWinner f =>
    if String.eqb f "winner_confidence" then [Console Warn UsingFallbackWinnerConfidence]
    else if String.eqb f "overall_confidence" then [Console Warn UsingFallbackOverallConfidence]
    else [Console Warn UsingFallbackGenericConfidence]
  end.

(** The alias precedence as section 4.1 words it: the body's alias field
    if present, else its name field if present, else the requested
    alias. *)
Definition alias_if_present (raw : value) (requested : string) : value :=
  if defined (prop raw "model_alias") then prop raw "model_alias"
  else if defined (prop raw "model_name") then prop raw "model_name"
  else VStr requested.

(** Section 4.4 as worded: a history record is normalised exactly as in
    section 4.1, with its stored [model] for the alias. *)
Definition normalize_history (rawPred : value) : M PredictionResult :=
  wc <- determine_confidence rawPred ;;
  ret {| predicted_winner := fst wc;
         confidence := snd wc;
         margin := prop rawPred "margin";
         model_alias := prop rawPred "model";
         prediction_id := prop rawPred "prediction_id";
         match_date := prop rawPred "match_date";
         home_team_name := prop rawPred "home_team_name";
         away_team_name := prop rawPred "away_team_name";
         prediction_timestamp := prop rawPred "prediction_timestamp" |}.

(** Reading conditions on a body: the labels that the code interpolates
    into its log lines have a string form.  Every string, number, boolean
    and [null] has one; the interface declares these fields as strings. *)
Definition alias_printable (raw : value) : bool :=
  negb (to_string_throws (prop raw "model_alias"))
  && negb (to_string_throws (prop raw "model_name")).

Definition labels_printable (raw : value) : bool :=
  negb (to_string_throws (prop raw "predicted_winner")) && alias_printable raw.

(** No I/O: a computation that emits console lines only, and no
    request. *)
Definition console_only {A : Type} (m : M A) : Prop :=
  Forall (fun e => exists l msg, e = Console l msg) (events m).

(** The requests among the events of a computation. *)
Definition requests (t : list event) : list request :=
  flat_map (fun e => match e with Fetch r => [r] | _ => [] end) t.

(** The default free-tier set. *)
Definition default_entitlements : value := VArr [VStr "Quick Pick"].

(** A refresh fails: the request is rejected in transport, or answered
    with status 403. *)
Definition refresh_fails (o : outcome) : bool :=
  match o with
  | Rejected => true
  | Responded r => status r =? 403
  end.

(** Section 4.4: descending by timestamp.  [not_older a b] holds when
    both records have a time and [a]'s is not before [b]'s. *)
Definition not_older (Date_getTime : value -> option Z) (a b : PredictionResult) : Prop :=
  match UserPredictions.date_of Date_getTime a, UserPredictions.date_of Date_getTime b with
  | Some dateA, Some dateB => dateB <= dateA
  | _, _ => False
  end.

End Spec.

(** ** The view components around the services *)

Module UI.
Import JS Net PredictionAPI.

(** A request whose body is a JSON object other than a prediction
    payload: the properties of the object literal, in order. *)
Record json_request : Type := {
  jurl : string;
  jmethod : string;
  jheaders : list (string * string);
  jbody : list (string * value)
}.

(** The user service, seen from [submitPredictionRating]. *)
Definition post_world : Type := json_request -> outcome.

(** The console lines of the functions modelled here, one constructor
    per call site. *)
Inductive message : Type :=
| FormValidationFailed
| RetrievedIdToken
| ErrorGettingIdToken (e : exn)
| PredictionFailed (e : exn)
| SubmittingPredictionRating (ratingUrl : string)
| ApiErrorResponseRating (errorBody : value)
| PredictionRatingSubmitted (predictionId : value)
| ErrorSubmittingPredictionRating (e : exn)
| MissingPredictionId (predictionResult : option PredictionResult)
| FailedToSubmitRating (e : exn).

(** The notifications shown through antd's [message]. *)
Inductive toast : Type :=
| MustBeLoggedIn
| PredictionIdMissing
| RatingSubmittedSuccessfully
| RatingFailed (e : exn).

Inductive event : Type :=
| Service (e : PredictionAPI.event)
| Console (l : level) (m : message)
| Post (r : json_request)
| Toast (t : toast).

(** Computations of this layer, as [M] with the events above. *)
Definition U (A : Type) : Type := list event * (exn + A).

Definition uret {A : Type} (a : A) : U A := ([], inr a).

Definition uthrow {A : Type} (e : exn) : U A := ([], inl e).

Definition ubind {A B : Type} (m : U A) (k : A -> U B) : U B :=
  match m with
  | (t, inl e) => (t, inl e)
  | (t, inr a) => let (t', r) := k a in (t ++ t', r)
  end.

Definition utry_catch {A : Type} (m : U A) (h : exn -> U A) : U A :=
  match m with
  | (t, inl e) => let (t', r) := h e in (t ++ t', r)
  | (t, inr a) => (t, inr a)
  end.

(** A computation of the service layer, run from this one. *)
Definition lift {A : Type} (m : M A) : U A := (map Service (events m), result m).

Declare Scope ui_scope.
Delimit Scope ui_scope with ui.
Notation "x <- m ;; k" := (ubind m (fun x => k))
  (at level 100, m at next level, right associativity) : ui_scope.
Notation "m ;; k" := (ubind m (fun _ => k))
  (at level 100, right associativity) : ui_scope.
Local Open Scope ui_scope.

Definition uconsole (l : level) (m : message) : U unit := ([Console l m], inr tt).

Definition notify (t : toast) : U unit := ([Toast t], inr tt).

Definition post (w : post_world) (r : json_request) : U response :=
  ([Post r], match w r with
             | Rejected => inl FetchFailed
             | Responded resp => inr resp
             end).

(** *** [services/predictionAPI.ts], lines 205-245 *)

Definition submitPredictionRating (w : post_world) (predictionId : value) (rating : Q)
    (idToken : string) : U unit :=
  let ratingUrl := USER_SERVICE_BASE_URL +:+ "/users/feedback/rating" in
  uconsole Log (SubmittingPredictionRating ratingUrl) ;;
  utry_catch
    (response <- post w {| jurl := ratingUrl; jmethod := "POST";
                           jheaders := [("Authorization", "Bearer " +:+ idToken);
                                        ("Content-Type", "application/json")];
                           jbody := [("prediction_id", predictionId);
                                     ("rating_value", VNum rating)] |} ;;
     (if negb (ok response) then
        let errorBody := match json response with Some v => v | None => VNull end in
        uconsole Error (ApiErrorResponseRating errorBody) ;;
        let detail := or_else (prop errorBody "detail") (VStr "No additional details.") in
        lift (interpolate detail) ;;
        uthrow (ApiRequestFailed (status response) (statusText response) detail)
      else uret tt) ;;
     lift (interpolate predictionId) ;;
     uconsole Log (PredictionRatingSubmitted predictionId))
    (fun e => uconsole Error (ErrorSubmittingPredictionRating e) ;; uthrow e).

(** *** [components/PredictionOutput.tsx], lines 18-20 and 63-90 *)

Record rating_state : Type := {
  ratingValue : Q;
  isRatingLoading : bool;
  ratingSubmitted : bool
}.

Definition initial_rating : rating_state :=
  {| ratingValue := 0; isRatingLoading := false; ratingSubmitted := false |}.

(** [predictionResult?.prediction_id] *)
Definition prediction_id_of (predictionResult : option PredictionResult) : value :=
  match predictionResult with
  | Some r => prediction_id r
  | None => VUndefined
  end.

(** The state when the handler has settled, and what it emitted. *)
Definition handleRatingSubmit (currentUser : option Auth.user)
    (predictionResult : option PredictionResult) (w : post_world)
    (value : Q) (s : rating_state) : list event * rating_state :=
  match currentUser with
  | None => ([Toast MustBeLoggedIn], s)
  | Some u =>
    if negb (truthy (prediction_id_of predictionResult)) then
      ([Toast PredictionIdMissing; Console Error (MissingPredictionId predictionResult)], s)
    else
      match (idToken <- lift (Auth.getIdToken u) ;;
             submitPredictionRating w (prediction_id_of predictionResult) value idToken) with
      | (t, inr _) =>
        (t ++ [Toast RatingSubmittedSuccessfully],
         {| ratingValue := value; isRatingLoading := false; ratingSubmitted := true |})
      | (t, inl err) =>
        (t ++ [Console Error (FailedToSubmitRating err); Toast (RatingFailed err)],
         {| ratingValue := value; isRatingLoading := false;
            ratingSubmitted := ratingSubmitted s |})
      end
  end.

(** *** [components/MainPredictionView.tsx], lines 9-29 *)

Record predict_state : Type := {
  loading : bool;
  error : option exn;
  predictionResult : option PredictionResult
}.

Definition initial_predict : predict_state :=
  {| loading := false; error := None; predictionResult := None |}.

(** The state when [handlePredict] has settled.  [error] holds the
    exception whose message is shown. *)
Definition handlePredict (w : world) (payload : PredictionRequestPayload)
    (modelAlias : string) (idToken : option string) (s : predict_state)
    : list event * predict_state :=
  match getPrediction w payload modelAlias idToken with
  | (t, inr res) =>
    (map Service t, {| loading := false; error := None; predictionResult := Some res |})
  | (t, inl err) =>
    (map Service t ++ [Console Error (PredictionFailed err)],
     {| loading := false; error := Some err; predictionResult := None |})
  end.

(** *** [components/PredictionForm.tsx], lines 58-98 and 192-195 *)

(** A number field of the form: empty ([null] or [undefined]), NaN, or
    a number. *)
Inductive form_number : Type :=
| Blank
| NaN
| Num (q : Q).

(** [PredictionFormData] of [types/index.ts] *)
Record PredictionFormData : Type := {
  homeTeam : option string;
  awayTeam : option string;
  homeOdds : form_number;
  awayOdds : form_number;
  matchDate : option string;
  selectedModelAlias : option string
}.

(** [!s] for a field that is a string, [null] or [undefined] *)
Definition given (s : option string) : option string :=
  match s with
  | Some t => if String.eqb t "" then None else Some t
  | None => None
  end.

(** [modelAlias !== 'Deep Dive' && odds != null && !isNaN(odds) && { odd: odds }],
    spread into the payload: the property is set to a number or left
    out. *)
Definition odd_for (modelAlias : string) (odds : form_number) : option Q :=
  if negb (String.eqb modelAlias "Deep Dive") then
    match odds with
    | Num q => Some q
    | Blank | NaN => None
    end
  else None.

(** [odds ?? null], as [JSON.stringify] writes it: a number, or [null]
    for an empty field and for NaN. *)
Definition odds_or_null (odds : form_number) : option Q :=
  match odds with
  | Num q => Some q
  | Blank | NaN => None
  end.

Section FormSubmit.

(** [dayjs(d).format('YYYY-MM-DD')], a function of the dayjs library. *)
Variable format_date : string -> string.

(** The arguments of the [onSubmit] call, when there is one. *)
Definition handleFormSubmit (currentUser : option Auth.user) (values : PredictionFormData)
    : list event * option (PredictionRequestPayload * string * option string) :=
  match given (homeTeam values), given (awayTeam values), given (matchDate values) with
  | Some home, Some away, Some date =>
    let modelAlias :=
      match given (selectedModelAlias values) with
      | Some a => a
      | None => Models.DEFAULT_MODEL_ALIAS
      end in
    let payload :=
      {| team_a := home;
         team_b := away;
         match_date_str := format_date date;
         odd_a := odd_for modelAlias (homeOdds values);
         odd_b := odd_for modelAlias (awayOdds values);
         odds_home_win := odds_or_null (homeOdds values);
         odds_away_win := odds_or_null (awayOdds values) |} in
    match currentUser with
    | Some u =>
      match Auth.idToken u with
      | Some t => ([Console Log RetrievedIdToken], Some (payload, modelAlias, Some t))
      | None => ([Console Error (ErrorGettingIdToken TokenError)],
                 Some (payload, modelAlias, None))
      end
    | None => ([], Some (payload, modelAlias, None))
    end
  | _, _, _ => ([Console Error FormValidationFailed], None)
  end.

(** The form wired as in [MainPredictionView]: [onSubmit] is
    [handlePredict]. *)
Definition submit (currentUser : option Auth.user) (values : PredictionFormData)
    (w : world) (s : predict_state) : list event * predict_state :=
  match handleFormSubmit currentUser values with
  | (t, Some (payload, modelAlias, idToken)) =>
    let (t', s') := handlePredict w payload modelAlias idToken s in (t ++ t', s')
  | (t, None) => (t, s)
  end.

End FormSubmit.

(** [allowedModes.includes(alias)]: an array holds the string, a string
    contains it; anything else has no such method. *)
Definition includes (allowedModes : value) (a : string) : exn + bool :=
  match allowedModes with
  | VArr l => inr (existsb (fun v => is_str v a) l)
  | VStr t => inr (match String.index 0 a t with Some _ => true | None => false end)
  | _ => inl TypeError
  end.

(** Lines 192-195: for each model of the registry, in order, whether
    its radio button is disabled. *)
Fixpoint model_options (allowedModes : value) (models : list Models.PredictionModel)
    : exn + list (Models.PredictionModel * bool) :=
  match models with
  | [] => inr []
  | model :: rest =>
    match includes allowedModes (Models.alias model) with
    | inl e => inl e
    | inr isAllowed =>
      match model_options allowedModes rest with
      | inl e => inl e
      | inr opts => inr ((model, negb isAllowed) :: opts)
      end
    end
  end.

(** The aliases whose button is enabled. *)
Definition enabled_aliases (allowedModes : value) : exn + list string :=
  match model_options allowedModes Models.PREDICTION_MODELS with
  | inl e => inl e
  | inr opts => inr (map (fun o => Models.alias (fst o)) (List.filter (fun o => negb (snd o)) opts))
  end.

End UI.

(** ** Further notions used in the statements *)

Module Behaviour.
Import JS Net PredictionAPI.
Local Open Scope js_scope.

(** The properties of the body that lines 58-112 read. *)
Definition read_fields : list string :=
  [ "predicted_winner"; "prob_home_rl"; "prob_away_rl"; "prob_draw_rl";
    "prob_home_win"; "prob_away_win"; "prob_draw";
    "winner_confidence"; "overall_confidence"; "confidence";
    "model_alias"; "model_name"; "margin"; "prediction_id" ].

(** The result for a body without data. *)
Definition default_result (requested : string) : PredictionResult :=
  {| predicted_winner := VUndefined;
     confidence := VNum 0;
     margin := VUndefined;
     model_alias := VStr requested;
     prediction_id := VUndefined;
     match_date := VUndefined;
     home_team_name := VUndefined;
     away_team_name := VUndefined;
     prediction_timestamp := VUndefined |}.

(** The request [getPrediction] sends for a model. *)
Definition prediction_request (model : Models.PredictionModel)
    (payload : PredictionRequestPayload) (idToken : option string) : request :=
  {| url := Models.apiUrl model;
     method := "POST";
     headers := match token_given idToken with
                | Some t => [("Content-Type", "application/json");
                             ("Authorization", "Bearer " +:+ t)]
                | None => [("Content-Type", "application/json")]
                end;
     body := Some payload |}.

(** What an entitlement poll resolves to when every link of its chain
    does: the [entitlements] property of the JSON body. *)
Definition poll_resolves (w : world) : option value :=
  match w {| url := "/api/stripe/entitlements"; method := "GET";
             headers := []; body := None |} with
  | Rejected => None
  | Responded r =>
    match json r with
    | Some data => if nullish data then None else Some (prop data "entitlements")
    | None => None
    end
  end.

(** The request [getUserPredictions] sends. *)
Definition history_request (idToken : string) : request :=
  {| url := USER_SERVICE_BASE_URL +:+ "/users/me/predictions";
     method := "GET";
     headers := [("Authorization", "Bearer " +:+ idToken);
                 ("Content-Type", "application/json")];
     body := None |}.

(** The request [fetchAllowedModes] sends with the token it has. *)
Definition modes_request (token : option string) : request :=
  {| url := "http://localhost:8007/users/me/modes";
     method := "GET";
     headers := match token_given token with
                | Some t => [("Authorization", "Bearer " +:+ t)]
                | None => []
                end;
     body := None |}.

(** The request [submitPredictionRating] sends. *)
Definition rating_request (predictionId : value) (rating : Q) (idToken : string)
    : UI.json_request :=
  {| UI.jurl := USER_SERVICE_BASE_URL +:+ "/users/feedback/rating";
     UI.jmethod := "POST";
     UI.jheaders := [("Authorization", "Bearer " +:+ idToken);
                     ("Content-Type", "application/json")];
     UI.jbody := [("prediction_id", predictionId); ("rating_value", VNum rating)] |}.

(** The error a response that is not [ok] is turned into: its status
    and the [detail] of its body, or the default text; a TypeError when
    the detail has no string form. *)
Definition http_error (resp : response) : exn :=
  let errorBody := match json resp with Some v => v | None => VNull end in
  let detail := or_else (prop errorBody "detail") (VStr "No additional details.") in
  if to_string_throws detail then TypeError
  else ApiRequestFailed (status resp) (statusText resp) detail.

(** The posts among the events of the view layer. *)
Definition posts (t : list UI.event) : list UI.json_request :=
  flat_map (fun e => match e with UI.Post r => [r] | _ => [] end) t.

(** The requests of the service layer among the events of the view
    layer. *)
Definition service_requests (t : list UI.event) : list request :=
  flat_map (fun e => match e with UI.Service (Fetch r) => [r] | _ => [] end) t.

(** A computation that, when it returns a result, has logged it as
    its last line. *)
Definition logs_result_last (m : M PredictionResult) : Prop :=
  forall t res, m = (t, inr res) ->
    exists t', t = t' ++ [Console Log (ProcessedPredictionResponse res)].

(** The last element of a list, if any. *)
Definition last_of {A : Type} (l : list A) : option A := List.last (map Some l) None.

End Behaviour.

(** * Properties *)

Import JS Net PredictionAPI.
Local Open Scope js_scope.

(** ** The effect monad *)

Lemma bind_ret_l {A B : Type} (a : A) (k : A -> M B) : bind (ret a) k = k a.
Proof. unfold bind, ret. destruct (k a) as [t r]. reflexivity. Qed.

Lemma get_object o k : get (VObj o) k = ret (prop (VObj o) k).
Proof. reflexivity. Qed.

Lemma interpolate_ok v : to_string_throws v = false -> interpolate v = ret tt.
Proof. unfold interpolate. intros ->. reflexivity. Qed.

(** ** The confidence block *)

(** Lines 59-90 agree with the ordered rule list on every object: the
    first rule that holds gives the confidence and its log line; when
    none holds the winner is interpolated into the warning. *)
Lemma determine_confidence_first_match o :
  let raw := VObj o in
  let winner := prop raw "predicted_winner" in
  determine_confidence raw =
  match List.find (Spec.rule_holds raw) Spec.confidence_rules with
  | Some r => (Spec.rule_log r, inr (winner, Spec.rule_value raw r))
  | None =>
    if to_string_throws winner then ([], inl TypeError)
    else ([Console Warn (CouldNotDetermineConfidence winner)], inr (winner, VNum 0))
  end.
Proof.
  cbv zeta. unfold determine_confidence.
  rewrite get_object, bind_ret_l.
  set (raw := VObj o). set (winner := prop raw "predicted_winner").
  unfold Spec.confidence_rules, Spec.rule_value. cbn [List.find Spec.rule_holds Spec.rule_field].
  fold winner.
  repeat match goal with
  | |- context [if ?b && ?c then _ else _] => destruct (b && c); [reflexivity |]
  | |- context [if defined ?v then _ else _] => destruct (defined v); [reflexivity |]
  end.
  unfold interpolate. destruct (to_string_throws winner); reflexivity.
Qed.

Lemma rule_holds_defined raw r :
  Spec.rule_holds raw r = true -> defined (Spec.rule_value raw r) = true.
Proof.
  destruct r as [l f | f]; unfold Spec.rule_holds, Spec.rule_value; simpl.
  - intros H. apply andb_prop in H. apply H.
  - trivial.
Qed.

(** The first rule that holds, by its position in the list. *)
Lemma find_first_index {A : Type} (P : A -> bool) (l : list A) (i : nat) (x : A) :
  l !! i = Some x ->
  P x = true ->
  (forall j y, (j < i)%nat -> l !! j = Some y -> P y = false) ->
  List.find P l = Some x.
Proof.
  revert i. induction l as [| a l IH]; intros i Hi Hx Hlow.
  - destruct i; discriminate.
  - destruct i as [| i]; simpl in *.
    + injection Hi as ->. rewrite Hx. reflexivity.
    + rewrite (Hlow 0%nat a) by (reflexivity || lia).
      apply (IH i); [assumption | assumption |].
      intros j y Hj Hy. apply (Hlow (S j) y); [lia | exact Hy].
Qed.

Lemma find_none_forall {A : Type} (P : A -> bool) (l : list A) :
  Forall (fun x => P x = false) l -> List.find P l = None.
Proof.
  induction 1 as [| x l Hx _ IH]; simpl; [reflexivity |].
  rewrite Hx. exact IH.
Qed.

(** ** The alias block *)

Lemma finalAlias_returns raw requested :
  Spec.alias_printable raw = true ->
  exists log,
    finalAlias raw requested =
    (log, inr (or_else (prop raw "model_alias")
                 (or_else (prop raw "model_name") (VStr requested)))).
Proof.
  unfold Spec.alias_printable. intros H. apply andb_prop in H as [Ha Hn].
  apply negb_true_iff in Ha, Hn.
  unfold finalAlias. rewrite (interpolate_ok _ Ha), (interpolate_ok _ Hn).
  repeat match goal with
  | |- context [if ?b then _ else _] =>
    lazymatch b with
    | context [if _ then _ else _] => fail
    | _ => destruct b
    end
  end; eexists; reflexivity.
Qed.

(** ** The whole normalisation *)

(** When the confidence block returns, so does the normalisation, with
    the fields of lines 104-112. *)
Lemma normalize_returns raw requested t winner conf :
  determine_confidence raw = (t, inr (winner, conf)) ->
  Spec.alias_printable raw = true ->
  exists t',
    normalize raw requested =
    (t ++ t',
     inr {| predicted_winner := winner;
            confidence := conf;
            margin := prop raw "margin";
            model_alias := or_else (prop raw "model_alias")
                             (or_else (prop raw "model_name") (VStr requested));
            prediction_id := prop raw "prediction_id";
            match_date := VUndefined;
            home_team_name := VUndefined;
            away_team_name := VUndefined;
            prediction_timestamp := VUndefined |}).
Proof.
  intros Hc Ha. destruct (finalAlias_returns raw requested Ha) as [t' Hf].
  exists t'. unfold normalize. rewrite Hc. unfold bind at 1. rewrite Hf.
  simpl. rewrite app_nil_r. reflexivity.
Qed.

(** The confidence block returns on every object whose winner has a
    string form. *)
Lemma determine_confidence_returns o :
  to_string_throws (prop (VObj o) "predicted_winner") = false ->
  exists t,
    determine_confidence (VObj o) =
    (t, inr (prop (VObj o) "predicted_winner",
             Spec.resolve Spec.confidence_rules (VObj o))).
Proof.
  intros Hw. rewrite determine_confidence_first_match. unfold Spec.resolve.
  destruct (List.find _ _) as [r |].
  - eexists; reflexivity.
  - rewrite Hw. eexists; reflexivity.
Qed.

(** ** Claims about the normalisation of [getPrediction] *)

(** C1.  For a response object in which some rule of the ordered list
    holds, the normalisation takes the confidence from the
    highest-priority rule that holds: if the rule at position [i] holds
    and no rule before it does, the confidence of the result is the
    value of that rule's field, whatever lower-priority rules hold as
    well. *)
Theorem confidence_from_highest_priority_rule
    (o : gmap string value) (requested : string) (i : nat) (r : Spec.rule) :
  Spec.confidence_rules !! i = Some r ->
  Spec.rule_holds (VObj o) r = true ->
  (forall j r', (j < i)%nat -> Spec.confidence_rules !! j = Some r' ->
                Spec.rule_holds (VObj o) r' = false) ->
  Spec.alias_printable (VObj o) = true ->
  exists log res,
    normalize (VObj o) requested = (log, inr res) /\
    confidence res = Spec.rule_value (VObj o) r.
Proof.
  intros Hi Hr Hlow Ha.
  pose proof (find_first_index _ _ _ _ Hi Hr Hlow) as Hfind.
  pose proof (determine_confidence_first_match o) as Hc. cbv zeta in Hc.
  rewrite Hfind in Hc.
  destruct (normalize_returns _ requested _ _ _ Hc Ha) as [t' Hn].
  eexists _, _. split; [exact Hn | reflexivity].
Qed.

(** The scenario of C1: winner "Away Win" with [prob_away_win] 0.61 and
    a generic [confidence] 0.5 gives 0.61, by the fifth rule. *)
Lemma confidence_from_highest_priority_rule_witness :
  let o : gmap string value :=
    {[ "predicted_winner" := VStr "Away Win";
       "prob_away_win" := VNum 0.61;
       "confidence" := VNum 0.5 ]} in
  Spec.rule_holds (VObj o) (Spec.AnyWinner "confidence") = true /\
  exists log res,
    normalize (VObj o) "Quick Pick" = (log, inr res) /\
    confidence res = VNum 0.61.
Proof.
  intros o. split; [vm_compute; reflexivity |].
  apply (confidence_from_highest_priority_rule o "Quick Pick" 4
           (Spec.WinnerField "Away Win" "prob_away_win")).
  - reflexivity.
  - vm_compute; reflexivity.
  - intros j r' Hj Hl.
    destruct j as [| [| [| [| j]]]]; try lia;
      simpl in Hl; injection Hl as <-; vm_compute; reflexivity.
  - vm_compute; reflexivity.
Defined.

Lemma labels_printable_split raw :
  Spec.labels_printable raw = true ->
  to_string_throws (prop raw "predicted_winner") = false /\
  Spec.alias_printable raw = true.
Proof.
  unfold Spec.labels_printable. intros H. apply andb_prop in H as [Hw Ha].
  apply negb_true_iff in Hw. split; assumption.
Qed.

(** On an object whose labels have a string form the normalisation
    returns, with the confidence the rule list resolves to. *)
Lemma normalize_object o requested :
  Spec.labels_printable (VObj o) = true ->
  exists t t',
    determine_confidence (VObj o) =
      (t, inr (prop (VObj o) "predicted_winner",
               Spec.resolve Spec.confidence_rules (VObj o))) /\
    normalize (VObj o) requested =
      (t ++ t',
       inr {| predicted_winner := prop (VObj o) "predicted_winner";
              confidence := Spec.resolve Spec.confidence_rules (VObj o);
              margin := prop (VObj o) "margin";
              model_alias := or_else (prop (VObj o) "model_alias")
                               (or_else (prop (VObj o) "model_name") (VStr requested));
              prediction_id := prop (VObj o) "prediction_id";
              match_date := VUndefined;
              home_team_name := VUndefined;
              away_team_name := VUndefined;
              prediction_timestamp := VUndefined |}).
Proof.
  intros H. apply labels_printable_split in H as [Hw Ha].
  destruct (determine_confidence_returns o Hw) as [t Hc].
  destruct (normalize_returns _ requested _ _ _ Hc Ha) as [t' Hn].
  exists t, t'. split; assumption.
Qed.

(** C5.  The confidence of the result is always populated; when no
    rule of the list holds (no matching winner/probability pair, and
    none of [winner_confidence], [overall_confidence], [confidence]
    present) it is exactly 0 and the warning of line 89 is logged. *)
Theorem unmatched_response_gets_zero_confidence
    (o : gmap string value) (requested : string) :
  Spec.labels_printable (VObj o) = true ->
  exists log res,
    normalize (VObj o) requested = (log, inr res) /\
    defined (confidence res) = true /\
    (Forall (fun r => Spec.rule_holds (VObj o) r = false) Spec.confidence_rules ->
     confidence res = VNum 0 /\
     In (Console Warn (CouldNotDetermineConfidence (prop (VObj o) "predicted_winner"))) log).
Proof.
  intros H. destruct (labels_printable_split _ H) as [Hw Ha].
  pose proof (determine_confidence_first_match o) as Hc. cbv zeta in Hc.
  destruct (List.find _ _) as [r |] eqn:Hfind.
  - destruct (normalize_returns _ requested _ _ _ Hc Ha) as [t' Hn].
    eexists _, _. split; [exact Hn |]. split.
    + apply find_some in Hfind as [_ Hr]. exact (rule_holds_defined _ _ Hr).
    + intros Hnone. apply find_none_forall in Hnone. congruence.
  - rewrite Hw in Hc.
    destruct (normalize_returns _ requested _ _ _ Hc Ha) as [t' Hn].
    eexists _, _. split; [exact Hn |]. split; [reflexivity |].
    intros _. split; [reflexivity | left; reflexivity].
Qed.

(** The scenario of section 8: winner "Draw" and no probability field. *)
Lemma unmatched_response_gets_zero_confidence_witness :
  let o : gmap string value := {[ "predicted_winner" := VStr "Draw" ]} in
  Spec.labels_printable (VObj o) = true /\
  exists log res,
    normalize (VObj o) "Quick Pick" = (log, inr res) /\
    confidence res = VNum 0 /\
    In (Console Warn (CouldNotDetermineConfidence (VStr "Draw"))) log.
Proof.
  intros o. split; [vm_compute; reflexivity |].
  destruct (unmatched_response_gets_zero_confidence o "Quick Pick")
    as (log & res & Hn & _ & Hzero); [vm_compute; reflexivity |].
  exists log, res. split; [exact Hn |].
  apply Hzero. repeat constructor.
Defined.

(** *** The normalisation performs no I/O but console lines *)

Lemma console_only_ret {A : Type} (a : A) : Spec.console_only (ret a).
Proof. constructor. Qed.

Lemma console_only_throw {A : Type} (e : exn) : Spec.console_only (@throw A e).
Proof. constructor. Qed.

Lemma console_only_console l msg : Spec.console_only (console l msg).
Proof. repeat constructor. eexists _, _. reflexivity. Qed.

Lemma console_only_bind {A B : Type} (m : M A) (k : A -> M B) :
  Spec.console_only m -> (forall a, Spec.console_only (k a)) -> Spec.console_only (bind m k).
Proof.
  unfold Spec.console_only, events, bind. intros Hm Hk.
  destruct m as [t [e | a]]; simpl in *; [exact Hm |].
  specialize (Hk a). destruct (k a) as [t' r]. simpl in *.
  apply Forall_app. split; assumption.
Qed.

Lemma console_only_interpolate v : Spec.console_only (interpolate v).
Proof. unfold interpolate. destruct (to_string_throws v); constructor. Qed.

Lemma console_only_get v k : Spec.console_only (get v k).
Proof. unfold get. destruct (nullish v); constructor. Qed.

Ltac console_only :=
  repeat first
    [ apply console_only_ret
    | apply console_only_throw
    | apply console_only_console
    | apply console_only_interpolate
    | apply console_only_get
    | apply console_only_bind; [| intros ?]
    | match goal with
      | |- Spec.console_only (if ?b then _ else _) => destruct b
      end ].

Lemma normalize_console_only raw requested : Spec.console_only (normalize raw requested).
Proof. unfold normalize, determine_confidence, finalAlias. console_only. Qed.

(** *** Where the normalisation raises *)

(** On a [null] body the read of line 60 raises. *)
Lemma normalize_nullish_raises raw requested :
  nullish raw = true -> normalize raw requested = ([], inl TypeError).
Proof. destruct raw; try discriminate; reflexivity. Qed.

(** A winner that has no string form raises at line 89, when no rule
    holds. *)
Lemma normalize_unprintable_winner_raises requested :
  normalize (VObj {[ "predicted_winner" := VObj {[ "toString" := VNum 1 ]} ]}) requested
  = ([], inl TypeError).
Proof. reflexivity. Qed.

(** The normalisation raises nothing but a TypeError. *)
Lemma normalize_raises_only_TypeError raw requested e :
  result (normalize raw requested) = inl e -> e = TypeError.
Proof.
  unfold normalize, determine_confidence, finalAlias, get, interpolate.
  destruct (nullish raw); [intros [= <-]; reflexivity |].
  rewrite bind_ret_l.
  repeat match goal with
  | |- context [if ?b then _ else _] =>
    lazymatch b with
    | context [if _ then _ else _] => fail
    | _ => destruct b
    end
  end; cbn; congruence.
Qed.

(** Every body other than [null] and [undefined] whose labels have a
    string form is normalised: an object, and also an array, a string,
    a number or a boolean, none of which has any of the properties
    read. *)
Lemma normalize_printable_returns raw requested :
  nullish raw = false ->
  Spec.labels_printable raw = true ->
  exists log res, normalize raw requested = (log, inr res).
Proof.
  intros Hnull H.
  destruct raw as [| | b | q | s | l | o]; try discriminate Hnull;
    try (eexists _, _; reflexivity).
  destruct (normalize_object o requested H) as (t & t' & _ & Hn).
  eexists _, _. exact Hn.
Qed.

(** C6 as stated fails: the normalisation is not total.  It raises a
    TypeError on the body [null], which a backend can send with status
    200, and on a winner label that is an object with a [toString]
    property of its own. *)
Lemma normalize_total_counterexample :
  let unprintable : value := VObj {[ "toString" := VNum 1 ]} in
  normalize VNull "Quick Pick" = ([], inl TypeError) /\
  normalize (VObj {[ "predicted_winner" := unprintable ]}) "Quick Pick"
    = ([], inl TypeError) /\
  ~ (forall raw requested, exists log res, normalize raw requested = (log, inr res)).
Proof.
  intros unprintable. split; [reflexivity |]. split; [reflexivity |].
  intros Htotal. destruct (Htotal VNull "Quick Pick") as (log & res & Hn).
  discriminate Hn.
Qed.

(** C6, as amended.  The normalisation returns a result on every body
    other than [null] whose labels ([predicted_winner], [model_alias],
    [model_name]) have a string form, whichever fields are present or
    absent and whatever the winner label.  On [null] it raises a
    TypeError before any log line.  Whenever it raises, the exception is
    a TypeError and the body is [null] or one of the three labels has
    no string form.  It is a function of the body and the requested
    alias whose only effects are console lines.  With no data at all the
    result is the default one: confidence 0 and the requested alias. *)
Theorem normalize_total_on_printable_bodies (raw : value) (requested : string) :
  (nullish raw = false -> Spec.labels_printable raw = true ->
   exists log res, normalize raw requested = (log, inr res)) /\
  (nullish raw = true -> normalize raw requested = ([], inl TypeError)) /\
  (forall e, result (normalize raw requested) = inl e ->
     e = TypeError /\ (nullish raw = true \/ Spec.labels_printable raw = false)) /\
  Forall (fun e => exists l msg, e = Console l msg) (events (normalize raw requested)) /\
  result (normalize (VObj ∅) requested) =
    inr {| predicted_winner := VUndefined;
           confidence := VNum 0;
           margin := VUndefined;
           model_alias := VStr requested;
           prediction_id := VUndefined;
           match_date := VUndefined;
           home_team_name := VUndefined;
           away_team_name := VUndefined;
           prediction_timestamp := VUndefined |}.
Proof.
  split; [| split; [| split; [| split]]].
  - apply normalize_printable_returns.
  - apply normalize_nullish_raises.
  - intros e He. split; [exact (normalize_raises_only_TypeError _ _ _ He) |].
    destruct (nullish raw) eqn:Hnull; [left; reflexivity | right].
    destruct (Spec.labels_printable raw) eqn:H; [| reflexivity].
    destruct (normalize_printable_returns raw requested Hnull H) as (log & res & Hn).
    rewrite Hn in He. discriminate He.
  - apply normalize_console_only.
  - reflexivity.
Qed.

(** A body that is an object with a winner no rule knows, a [null]
    probability and an array for a margin is normalised; so is a body
    that is a bare array. *)
Lemma normalize_total_on_printable_bodies_witness :
  let o : gmap string value :=
    {[ "predicted_winner" := VStr "Nobody"; "prob_draw" := VNull;
       "margin" := VArr [VNum 4; VNum 8] ]} in
  (nullish (VObj o) = false /\ Spec.labels_printable (VObj o) = true /\
   exists log res, normalize (VObj o) "Deep Dive" = (log, inr res)) /\
  (exists log res, normalize (VArr [VNum 4; VNum 8]) "Deep Dive" = (log, inr res)).
Proof.
  intros o. split; [split; [reflexivity | split; [vm_compute; reflexivity |]] |].
  - apply (proj1 (normalize_total_on_printable_bodies (VObj o) "Deep Dive"));
      vm_compute; reflexivity.
  - apply (proj1 (normalize_total_on_printable_bodies (VArr [VNum 4; VNum 8]) "Deep Dive"));
      vm_compute; reflexivity.
Defined.

(** C9.  The [margin] and [prediction_id] of the result are those of
    the raw response, [undefined] when it has none. *)
Theorem margin_and_prediction_id_pass_through
    (o : gmap string value) (requested : string) :
  Spec.labels_printable (VObj o) = true ->
  exists log res,
    normalize (VObj o) requested = (log, inr res) /\
    margin res = default VUndefined (o !! "margin") /\
    prediction_id res = default VUndefined (o !! "prediction_id").
Proof.
  intros H. destruct (normalize_object o requested H) as (t & t' & _ & Hn).
  eexists _, _. split; [exact Hn |]. split; reflexivity.
Qed.

Lemma margin_and_prediction_id_pass_through_witness :
  let o : gmap string value :=
    {[ "predicted_winner" := VStr "Home Win"; "prob_home_win" := VNum 0.7;
       "margin" := VArr [VNum 4; VNum 8]; "prediction_id" := VNum 17 ]} in
  Spec.labels_printable (VObj o) = true /\
  exists log res,
    normalize (VObj o) "Stacked" = (log, inr res) /\
    margin res = VArr [VNum 4; VNum 8] /\
    prediction_id res = VNum 17.
Proof.
  intros o. split; [vm_compute; reflexivity |].
  apply (margin_and_prediction_id_pass_through o "Stacked"). vm_compute; reflexivity.
Defined.

(** *** Winner labels are matched exactly *)

(** A probability field is read only under its own winner label: with
    any other winner, setting or changing the field changes neither the
    result nor the log. *)
Lemma prob_field_ignored_unless_label o requested l f v :
  In (Spec.WinnerField l f) Spec.confidence_rules ->
  is_str (prop (VObj o) "predicted_winner") l = false ->
  normalize (VObj (<[f := v]> o)) requested = normalize (VObj o) requested.
Proof.
  intros Hin Hl. unfold Spec.confidence_rules in Hin. simpl in Hin.
  unfold normalize, determine_confidence, finalAlias, get, prop in *.
  cbn [nullish].
  repeat (destruct Hin as [Hin | Hin];
          [ first [ discriminate Hin
                  | injection Hin as <- <-;
                    repeat match goal with
                    | |- context [<[?i := ?x]> ?m !! ?j] =>
                      rewrite (lookup_insert_ne m i j x) by done
                    end;
                    rewrite !bind_ret_l, !Hl; cbn [andb]; reflexivity ] |]).
  contradiction Hin.
Qed.

(** C10.  The probability fields fire only under their own labels: the
    RL fields under "Home", "Away", "Draw", the standard ones under
    "Home Win", "Away Win", "Draw"; under any other winner a
    probability field has no influence on the result.  So a response
    with winner "Home" and none of [prob_home_rl], [winner_confidence],
    [overall_confidence], [confidence] gets confidence 0, whether or not
    it carries [prob_home_win]. *)
Theorem winner_label_matching_is_exact (o : gmap string value) (requested : string) :
  Spec.alias_printable (VObj o) = true ->
  (forall l f v,
     In (Spec.WinnerField l f) Spec.confidence_rules ->
     is_str (prop (VObj o) "predicted_winner") l = false ->
     normalize (VObj (<[f := v]> o)) requested = normalize (VObj o) requested) /\
  (prop (VObj o) "predicted_winner" = VStr "Home" ->
   prop (VObj o) "prob_home_rl" = VUndefined ->
   prop (VObj o) "winner_confidence" = VUndefined ->
   prop (VObj o) "overall_confidence" = VUndefined ->
   prop (VObj o) "confidence" = VUndefined ->
   exists log res,
     normalize (VObj o) requested = (log, inr res) /\ confidence res = VNum 0).
Proof.
  intros Ha. split.
  - intros l f v. apply prob_field_ignored_unless_label.
  - intros Hw Hrl Hwc Hoc Hc.
    assert (Hnone : List.find (Spec.rule_holds (VObj o)) Spec.confidence_rules = None).
    { apply find_none_forall. unfold Spec.confidence_rules.
      repeat constructor; unfold Spec.rule_holds;
        rewrite ?Hw, ?Hrl, ?Hwc, ?Hoc, ?Hc; reflexivity. }
    pose proof (determine_confidence_first_match o) as Hd. cbv zeta in Hd.
    rewrite Hnone, Hw in Hd. cbn [to_string_throws] in Hd.
    destruct (normalize_returns _ requested _ _ _ Hd Ha) as [t' Hn].
    eexists _, _. split; [exact Hn | reflexivity].
Qed.

Lemma winner_label_matching_is_exact_witness :
  let o : gmap string value :=
    {[ "predicted_winner" := VStr "Home"; "prob_home_win" := VNum 0.9 ]} in
  Spec.alias_printable (VObj o) = true /\
  prop (VObj o) "prob_home_win" = VNum 0.9 /\
  exists log res,
    normalize (VObj o) "Edge Finder" = (log, inr res) /\ confidence res = VNum 0.
Proof.
  intros o. split; [vm_compute; reflexivity |]. split; [vm_compute; reflexivity |].
  apply (proj2 (winner_label_matching_is_exact o "Edge Finder" eq_refl));
    vm_compute; reflexivity.
Defined.

(** *** The alias of the result *)

Lemma is_str_true v s : is_str v s = true -> v = VStr s.
Proof.
  destruct v; simpl; try discriminate.
  intros H. apply String.eqb_eq in H. congruence.
Qed.

(** The alias block returns the first of [model_alias], [model_name]
    that is truthy, else the requested alias, and logs whenever that is
    not the requested alias. *)
Lemma finalAlias_logs_mismatch raw requested :
  Spec.alias_printable raw = true ->
  exists log,
    finalAlias raw requested =
    (log, inr (or_else (prop raw "model_alias")
                 (or_else (prop raw "model_name") (VStr requested)))) /\
    (or_else (prop raw "model_alias") (or_else (prop raw "model_name") (VStr requested))
       <> VStr requested ->
     In (Console Warn (BackendReturnedAlias (prop raw "model_alias") requested)) log \/
     In (Console Info (BackendModelNameDiffers (prop raw "model_name") requested)) log).
Proof.
  unfold Spec.alias_printable. intros H. apply andb_prop in H as [Ha Hn].
  apply negb_true_iff in Ha, Hn.
  unfold finalAlias, or_else. rewrite (interpolate_ok _ Ha), (interpolate_ok _ Hn).
  destruct (truthy (prop raw "model_alias")) eqn:Hta;
    destruct (is_str (prop raw "model_alias") requested) eqn:Hsa;
    destruct (truthy (prop raw "model_name")) eqn:Htn;
    destruct (is_str (prop raw "model_name") requested) eqn:Hsn;
    cbn [negb andb];
    (eexists; split; [reflexivity |]);
    intros Hne;
    try (apply is_str_true in Hsa); try (apply is_str_true in Hsn);
    try congruence;
    simpl; auto.
Qed.

(** The normalisation is its two blocks in sequence. *)
Lemma normalize_steps raw requested t winner conf t' a :
  determine_confidence raw = (t, inr (winner, conf)) ->
  finalAlias raw requested = (t', inr a) ->
  normalize raw requested =
  (t ++ t',
   inr {| predicted_winner := winner;
          confidence := conf;
          margin := prop raw "margin";
          model_alias := a;
          prediction_id := prop raw "prediction_id";
          match_date := VUndefined;
          home_team_name := VUndefined;
          away_team_name := VUndefined;
          prediction_timestamp := VUndefined |}).
Proof.
  intros Hc Hf. unfold normalize. rewrite Hc. unfold bind at 1. rewrite Hf.
  simpl. rewrite app_nil_r. reflexivity.
Qed.

(** C8, as amended.  The alias of the result is the response's
    [model_alias] if it is present and not empty (truthy), else its
    [model_name] if that is present and not empty, else the requested
    alias.  A backend alias that differs from the requested one is
    logged and kept: the normalisation still returns. *)
Theorem alias_from_first_nonempty_label (o : gmap string value) (requested : string) :
  Spec.labels_printable (VObj o) = true ->
  exists log res,
    normalize (VObj o) requested = (log, inr res) /\
    model_alias res =
      (if truthy (prop (VObj o) "model_alias") then prop (VObj o) "model_alias"
       else if truthy (prop (VObj o) "model_name") then prop (VObj o) "model_name"
       else VStr requested) /\
    (model_alias res <> VStr requested ->
     In (Console Warn (BackendReturnedAlias (prop (VObj o) "model_alias") requested)) log \/
     In (Console Info (BackendModelNameDiffers (prop (VObj o) "model_name") requested)) log).
Proof.
  intros H. destruct (labels_printable_split _ H) as [Hw Ha].
  destruct (determine_confidence_returns o Hw) as [t Hc].
  destruct (finalAlias_logs_mismatch (VObj o) requested Ha) as (t' & Hf & Hlog).
  exists (t ++ t'). eexists. split; [exact (normalize_steps _ _ _ _ _ _ _ Hc Hf) |].
  split; [reflexivity |].
  intros Hne. specialize (Hlog Hne).
  destruct Hlog as [Hl | Hl]; [left | right]; apply in_or_app; right; exact Hl.
Qed.

Lemma alias_from_first_nonempty_label_witness :
  let o : gmap string value :=
    {[ "predicted_winner" := VStr "Home Win"; "prob_home_win" := VNum 0.7;
       "model_alias" := VStr "Stacked" ]} in
  Spec.labels_printable (VObj o) = true /\
  exists log res,
    normalize (VObj o) "Quick Pick" = (log, inr res) /\
    model_alias res = VStr "Stacked" /\
    In (Console Warn (BackendReturnedAlias (VStr "Stacked") "Quick Pick")) log.
Proof.
  intros o. split; [vm_compute; reflexivity |].
  destruct (alias_from_first_nonempty_label o "Quick Pick")
    as (log & res & Hn & Ha & _); [vm_compute; reflexivity |].
  exists log, res. split; [exact Hn |]. split; [exact Ha |].
  pose proof Hn as Hn'. vm_compute in Hn'. injection Hn' as <- _.
  left. reflexivity.
Defined.

(** C8 as stated fails on a response whose [model_alias] is present
    but empty: the stated precedence keeps the empty alias, line 93
    falls through to [model_name]. *)
Lemma alias_if_present_counterexample :
  let o : gmap string value :=
    {[ "predicted_winner" := VStr "Home Win"; "prob_home_win" := VNum 0.7;
       "model_alias" := VStr ""; "model_name" := VStr "Stacked" ]} in
  exists res,
    result (normalize (VObj o) "Quick Pick") = inr res /\
    model_alias res = VStr "Stacked" /\
    Spec.alias_if_present (VObj o) "Quick Pick" = VStr "" /\
    model_alias res <> Spec.alias_if_present (VObj o) "Quick Pick".
Proof.
  intros o. eexists. split; [vm_compute; reflexivity |].
  split; [reflexivity |]. split; [vm_compute; reflexivity |].
  vm_compute. discriminate.
Qed.

(** ** [getPrediction] as a whole *)

Lemma events_bind {A B : Type} (m : M A) (k : A -> M B) :
  events (bind m k) =
  events m ++ match result m with inr a => events (k a) | inl _ => [] end.
Proof.
  destruct m as [t [e | a]]; unfold bind, events, result; simpl.
  - rewrite app_nil_r. reflexivity.
  - destruct (k a). reflexivity.
Qed.

Lemma result_bind {A B : Type} (m : M A) (k : A -> M B) :
  result (bind m k) =
  match result m with inr a => result (k a) | inl e => inl e end.
Proof.
  destruct m as [t [e | a]]; unfold bind, result; simpl; [reflexivity |].
  destruct (k a). reflexivity.
Qed.

Lemma events_try_catch {A : Type} (m : M A) (h : exn -> M A) :
  events (try_catch m h) =
  events m ++ match result m with inl e => events (h e) | inr _ => [] end.
Proof.
  destruct m as [t [e | a]]; unfold try_catch, events, result; simpl.
  - destruct (h e). reflexivity.
  - rewrite app_nil_r. reflexivity.
Qed.

Lemma result_try_catch {A : Type} (m : M A) (h : exn -> M A) :
  result (try_catch m h) =
  match result m with inl e => result (h e) | inr a => inr a end.
Proof.
  destruct m as [t [e | a]]; unfold try_catch, result; simpl; [| reflexivity].
  destruct (h e). reflexivity.
Qed.

Lemma getModelByAlias_absent (a : string) :
  ~ In a (map Models.alias Models.PREDICTION_MODELS) ->
  Models.getModelByAlias a = None.
Proof.
  unfold Models.getModelByAlias.
  induction Models.PREDICTION_MODELS as [| m l IH]; intros Hnot; simpl in *.
  - reflexivity.
  - destruct (String.eqb (Models.alias m) a) eqn:E.
    + apply String.eqb_eq in E. tauto.
    + apply IH. tauto.
Qed.

(** C7.  For an alias that no entry of the registry carries,
    [getPrediction] raises the configuration error of line 17 and
    issues no request: the lookup of line 14 is answered before anything
    is sent. *)
Theorem unknown_alias_fails_before_fetch
    (w : world) (payload : PredictionRequestPayload) (a : string)
    (idToken : option string) :
  ~ In a (map Models.alias Models.PREDICTION_MODELS) ->
  result (getPrediction w payload a idToken) = inl (ConfigurationError a) /\
  forall r, ~ In (Fetch r) (events (getPrediction w payload a idToken)).
Proof.
  intros Hnot. unfold getPrediction.
  rewrite (getModelByAlias_absent a Hnot). split; [reflexivity |].
  intros r []. 
Qed.

(** The scenario of section 8: the alias "Nonexistent", on a network
    that would answer. *)
Lemma unknown_alias_fails_before_fetch_witness :
  let w : world := fun _ =>
    Responded {| status := 200; statusText := "OK";
                 json := Some (VObj {[ "predicted_winner" := VStr "Home" ]}) |} in
  let payload :=
    {| team_a := "Broncos"; team_b := "Storm"; match_date_str := "2025-03-01";
       odd_a := None; odd_b := None; odds_home_win := None; odds_away_win := None |} in
  ~ In "Nonexistent" (map Models.alias Models.PREDICTION_MODELS) /\
  result (getPrediction w payload "Nonexistent" None)
    = inl (ConfigurationError "Nonexistent") /\
  forall r, ~ In (Fetch r) (events (getPrediction w payload "Nonexistent" None)).
Proof.
  intros w payload.
  assert (Hnot : ~ In "Nonexistent" (map Models.alias Models.PREDICTION_MODELS)).
  { simpl. intros H. repeat (destruct H as [H | H]; [discriminate H |]). exact H. }
  split; [exact Hnot |].
  exact (unknown_alias_fails_before_fetch w payload "Nonexistent" None Hnot).
Defined.

(** For an alias of the registry exactly one request is sent, to the
    endpoint of the model found. *)
Lemma requests_console_only {A : Type} (m : M A) :
  Spec.console_only m -> Spec.requests (events m) = [].
Proof.
  unfold Spec.console_only, Spec.requests. induction 1 as [| e t He _ IH]; simpl.
  - reflexivity.
  - destruct He as (l & msg & ->). exact IH.
Qed.

Lemma console_only_response_json r : Spec.console_only (response_json r).
Proof. unfold response_json. destruct (json r); console_only. Qed.

Lemma console_only_check_ok onError r : Spec.console_only (check_ok onError r).
Proof. unfold check_ok. console_only. Qed.

Lemma requests_bind {A B : Type} (m : M A) (k : A -> M B) :
  Spec.requests (events (bind m k)) =
  Spec.requests (events m)
  ++ match result m with inr a => Spec.requests (events (k a)) | inl _ => [] end.
Proof.
  rewrite events_bind. unfold Spec.requests. rewrite flat_map_app.
  destruct (result m); reflexivity.
Qed.

Lemma requests_try_catch {A : Type} (m : M A) (h : exn -> M A) :
  Spec.requests (events (try_catch m h)) =
  Spec.requests (events m)
  ++ match result m with inl e => Spec.requests (events (h e)) | inr _ => [] end.
Proof.
  rewrite events_try_catch. unfold Spec.requests. rewrite flat_map_app.
  destruct (result m); reflexivity.
Qed.

Lemma known_alias_fetches_once w payload a idToken model :
  Models.getModelByAlias a = Some model ->
  exists hdrs,
    Spec.requests (events (getPrediction w payload a idToken))
    = [ {| url := Models.apiUrl model; method := "POST";
           headers := hdrs; body := Some payload |} ].
Proof.
  intros H. unfold getPrediction. rewrite H.
  assert (Hrest : forall response,
    Spec.console_only
      (check_ok ApiErrorResponse response ;;
       rawData <- response_json response ;;
       resultData <- normalize rawData a ;;
       console Log (ProcessedPredictionResponse resultData) ;;
       ret resultData)).
  { intros response.
    apply console_only_bind; [apply console_only_check_ok | intros _].
    apply console_only_bind; [apply console_only_response_json | intros rawData].
    apply console_only_bind; [apply normalize_console_only | intros resultData].
    console_only. }
  set (hdrs := match token_given idToken with
               | Some t => [("Content-Type", "application/json");
                            ("Authorization", "Bearer " +:+ t)]
               | None => [("Content-Type", "application/json")]
               end).
  exists hdrs.
  rewrite requests_bind. cbn [console events result fst snd Spec.requests flat_map app].
  rewrite requests_try_catch, requests_bind.
  match goal with
  | |- context [bind ?hd _] =>
    match hd with
    | match token_given idToken with _ => _ end =>
      assert (Hev : Spec.requests (events hd) = [])
        by (destruct (token_given idToken); reflexivity);
      assert (Hres : result hd = inr hdrs)
        by (subst hdrs; destruct (token_given idToken); reflexivity);
      rewrite Hev, Hres
    end
  end.
  rewrite requests_bind. cbn [fetch events result fst snd Spec.requests flat_map app].
  match goal with
  | |- context [result (bind ?hd ?k)] =>
    rewrite (result_bind hd k), Hres, (result_bind (fetch w _) _)
  end.
  cbn [fetch result snd].
  destruct (w _) as [| response].
  - reflexivity.
  - rewrite (requests_console_only _ (Hrest response)).
    match goal with
    | |- context [match ?r with inl _ => _ | inr _ => _ end] => destruct r
    end; reflexivity.
Qed.

(** On a 2xx response with a JSON body, the result of [getPrediction]
    is the result of the normalisation of that body, and an exception
    of the normalisation is rethrown. *)
Lemma getPrediction_normalizes w payload a idToken model resp raw :
  Models.getModelByAlias a = Some model ->
  (forall r, w r = Responded resp) ->
  ok resp = true ->
  json resp = Some raw ->
  result (getPrediction w payload a idToken) = result (normalize raw a).
Proof.
  intros H Hw Hok Hjson. unfold getPrediction. rewrite H.
  rewrite result_bind. cbn [console result snd].
  rewrite result_try_catch.
  match goal with
  | |- match result ?body with _ => _ end = _ =>
    assert (Hbody : result body = result (normalize raw a))
  end.
  { rewrite result_bind.
    destruct (token_given idToken); cbn [console ret bind result snd];
      rewrite result_bind; unfold fetch; rewrite Hw; cbn [result snd];
      rewrite result_bind; unfold check_ok; rewrite Hok; cbn [negb ret result snd];
      rewrite result_bind; unfold response_json; rewrite Hjson; cbn [ret result snd];
      rewrite result_bind; destruct (result (normalize raw a)); reflexivity. }
  rewrite Hbody. destruct (result (normalize raw a)); reflexivity.
Qed.

(** ** The history records of [getUserPredictions] *)

(** On a 2xx response whose body is a JSON array, the result of
    [getUserPredictions] is the callback mapped over the records in
    order. *)
Lemma getUserPredictions_maps_records w token resp l :
  (forall r, w r = Responded resp) ->
  ok resp = true ->
  json resp = Some (VArr l) ->
  result (getUserPredictions w token) = result (mapM processedPrediction l).
Proof.
  intros Hw Hok Hjson. unfold getUserPredictions.
  rewrite result_bind. cbn [console result snd].
  rewrite result_try_catch.
  match goal with
  | |- match result ?body with _ => _ end = _ =>
    assert (Hbody : result body = result (mapM processedPrediction l))
  end.
  { rewrite result_bind. unfold fetch. rewrite Hw. cbn [result snd].
    rewrite result_bind. unfold check_ok. rewrite Hok. cbn [negb ret result snd].
    rewrite result_bind. unfold response_json. rewrite Hjson. cbn [ret result snd].
    rewrite result_bind. cbn [array_map].
    destruct (result (mapM processedPrediction l)); reflexivity. }
  rewrite Hbody. destruct (result (mapM processedPrediction l)); reflexivity.
Qed.

(** Lines 156-177 agree with the rule list without its last rule, the
    generic [confidence] fallback; lines 180-192 copy the other
    fields. *)
Lemma processedPrediction_first_match o :
  let raw := VObj o in
  let fields conf :=
    {| predicted_winner := prop raw "predicted_winner";
       confidence := conf;
       margin := VUndefined;
       model_alias := prop raw "model";
       prediction_id := prop raw "prediction_id";
       match_date := prop raw "match_date";
       home_team_name := prop raw "home_team_name";
       away_team_name := prop raw "away_team_name";
       prediction_timestamp := prop raw "prediction_timestamp" |} in
  processedPrediction raw =
  match List.find (Spec.rule_holds raw) (removelast Spec.confidence_rules) with
  | Some r => ([], inr (fields (Spec.rule_value raw r)))
  | None =>
    if to_string_throws (prop raw "prediction_id") then ([], inl TypeError)
    else ([Console Warn (CouldNotDetermineConfidenceForId (prop raw "prediction_id"))],
          inr (fields (VNum 0)))
  end.
Proof.
  cbv zeta. unfold processedPrediction.
  rewrite get_object, bind_ret_l.
  set (raw := VObj o). set (winner := prop raw "predicted_winner").
  unfold Spec.confidence_rules, Spec.rule_value.
  cbn [removelast List.find Spec.rule_holds Spec.rule_field].
  fold winner.
  repeat match goal with
  | |- context [if ?b && ?c then _ else _] => destruct (b && c); [reflexivity |]
  | |- context [if defined ?v then _ else _] => destruct (defined v); [reflexivity |]
  end.
  unfold interpolate. destruct (to_string_throws (prop raw "prediction_id")); reflexivity.
Qed.

(** Without a generic [confidence] field the last rule never decides. *)
Lemma resolve_without_generic raw :
  prop raw "confidence" = VUndefined ->
  Spec.resolve Spec.confidence_rules raw
  = Spec.resolve (removelast Spec.confidence_rules) raw.
Proof.
  intros Hc. unfold Spec.resolve, Spec.confidence_rules.
  cbn [removelast List.find Spec.rule_holds].
  rewrite Hc. cbn [defined].
  repeat match goal with
  | |- context [if ?b then _ else _] => destruct b; [reflexivity |]
  end.
  reflexivity.
Qed.

(** C3, as amended.  A history record gets its confidence by the same
    ordered rules as a prediction response, except the last: there is
    no generic [confidence] fallback, so a record that only the generic
    rule would match gets 0.  [prediction_id] passes through, the
    stored [model] is the alias, and [margin] is not carried over.  On
    a record with neither a generic [confidence] nor a [margin] the
    result is the one section 4.4 describes. *)
Theorem history_record_normalization (o : gmap string value) :
  to_string_throws (prop (VObj o) "prediction_id") = false ->
  exists log res,
    processedPrediction (VObj o) = (log, inr res) /\
    predicted_winner res = prop (VObj o) "predicted_winner" /\
    confidence res = Spec.resolve (removelast Spec.confidence_rules) (VObj o) /\
    margin res = VUndefined /\
    model_alias res = prop (VObj o) "model" /\
    prediction_id res = prop (VObj o) "prediction_id" /\
    (prop (VObj o) "confidence" = VUndefined ->
     prop (VObj o) "margin" = VUndefined ->
     to_string_throws (prop (VObj o) "predicted_winner") = false ->
     result (Spec.normalize_history (VObj o)) = inr res).
Proof.
  intros Hid.
  pose proof (processedPrediction_first_match o) as Hp. cbv zeta in Hp.
  assert (Hspec :
    prop (VObj o) "confidence" = VUndefined ->
    prop (VObj o) "margin" = VUndefined ->
    to_string_throws (prop (VObj o) "predicted_winner") = false ->
    result (Spec.normalize_history (VObj o)) =
    inr {| predicted_winner := prop (VObj o) "predicted_winner";
           confidence := Spec.resolve (removelast Spec.confidence_rules) (VObj o);
           margin := VUndefined;
           model_alias := prop (VObj o) "model";
           prediction_id := prop (VObj o) "prediction_id";
           match_date := prop (VObj o) "match_date";
           home_team_name := prop (VObj o) "home_team_name";
           away_team_name := prop (VObj o) "away_team_name";
           prediction_timestamp := prop (VObj o) "prediction_timestamp" |}).
  { intros Hc Hm Hw. destruct (determine_confidence_returns o Hw) as [t Hd].
    unfold Spec.normalize_history. rewrite Hd. cbn [bind ret result snd fst].
    rewrite Hm, (resolve_without_generic _ Hc). reflexivity. }
  unfold Spec.resolve in *.
  destruct (List.find _ (removelast _)) as [r |].
  - eexists _, _. split; [exact Hp |]. repeat (split; [reflexivity |]). exact Hspec.
  - rewrite Hid in Hp.
    eexists _, _. split; [exact Hp |]. repeat (split; [reflexivity |]). exact Hspec.
Qed.

Lemma history_record_normalization_witness :
  let o : gmap string value :=
    {[ "predicted_winner" := VStr "Away"; "prob_away_rl" := VNum 0.64;
       "overall_confidence" := VNum 0.4; "model" := VStr "Edge Finder";
       "prediction_id" := VNum 31;
       "prediction_timestamp" := VStr "2025-03-01T10:00:00Z" ]} in
  to_string_throws (prop (VObj o) "prediction_id") = false /\
  exists log res,
    processedPrediction (VObj o) = (log, inr res) /\
    confidence res = VNum 0.64 /\
    model_alias res = VStr "Edge Finder" /\
    prediction_id res = VNum 31 /\
    result (Spec.normalize_history (VObj o)) = inr res.
Proof.
  intros o. split; [reflexivity |].
  destruct (history_record_normalization o)
    as (log & res & Hp & _ & Hc & _ & Ha & Hi & Hspec); [reflexivity |].
  exists log, res. split; [exact Hp |].
  split; [exact Hc |]. split; [exact Ha |]. split; [exact Hi |].
  apply Hspec; reflexivity.
Defined.

(** C3 as stated fails on a record that carries a generic [confidence]
    and a [margin]: section 4.4 would give confidence 0.5 and margin
    12, the history mapping gives 0 and no margin. *)
Lemma history_normalization_counterexample :
  let rawPred : value :=
    VObj {[ "predicted_winner" := VStr "Home Win"; "confidence" := VNum 0.5;
            "margin" := VNum 12; "model" := VStr "Quick Pick";
            "prediction_id" := VNum 7 ]} in
  exists res spec_res,
    result (processedPrediction rawPred) = inr res /\
    result (Spec.normalize_history rawPred) = inr spec_res /\
    confidence spec_res = VNum 0.5 /\ confidence res = VNum 0 /\
    margin spec_res = VNum 12 /\ margin res = VUndefined /\
    res <> spec_res.
Proof.
  intros rawPred. eexists _, _.
  split; [vm_compute; reflexivity |]. split; [vm_compute; reflexivity |].
  repeat (split; [reflexivity |]). discriminate.
Qed.

(** ** The allowed-modes fetch of [PredictionForm] fails closed *)

Lemma forbidden_is_not_ok r : (status r =? 403) = true -> ok r = false.
Proof. unfold ok. intros H. apply Z.eqb_eq in H. rewrite H. reflexivity. Qed.

(** Whatever the modes were, after a refresh that is rejected in
    transport or answered with 403 they are [['Quick Pick']]. *)
Lemma fetchAllowedModes_fails_closed currentUser w allowedModes :
  (forall r, Spec.refresh_fails (w r) = true) ->
  PredictionForm.allowedModes_after currentUser w allowedModes
  = Spec.default_entitlements.
Proof.
  intros Hfail. unfold PredictionForm.allowedModes_after, PredictionForm.fetchAllowedModes.
  rewrite result_try_catch, result_bind.
  assert (Hfetch : forall r,
    result (response <- fetch w r ;;
            if ok response then modes <- response_json response ;; ret modes
            else if status response =? 403 then
              console Warn NotAuthorizedForPremiumModes ;;
              ret PredictionForm.QUICK_PICK_ONLY
            else
              console Error (FailedToFetchAllowedModes (status response)) ;;
              ret PredictionForm.QUICK_PICK_ONLY)
    = inl FetchFailed \/
    result (response <- fetch w r ;;
            if ok response then modes <- response_json response ;; ret modes
            else if status response =? 403 then
              console Warn NotAuthorizedForPremiumModes ;;
              ret PredictionForm.QUICK_PICK_ONLY
            else
              console Error (FailedToFetchAllowedModes (status response)) ;;
              ret PredictionForm.QUICK_PICK_ONLY)
    = inr PredictionForm.QUICK_PICK_ONLY).
  { intros r. rewrite result_bind. unfold fetch. cbn [result snd].
    specialize (Hfail r). destruct (w r) as [| resp]; [left; reflexivity |].
    right. simpl in Hfail. rewrite (forbidden_is_not_ok _ Hfail), Hfail. reflexivity. }
  destruct currentUser as [[[t |]] |]; cbn [Auth.getIdToken Auth.idToken bind ret throw result snd].
  - match goal with
    | |- context [fetch w ?r] => destruct (Hfetch r) as [-> | ->]; reflexivity
    end.
  - reflexivity.
  - match goal with
    | |- context [fetch w ?r] => destruct (Hfetch r) as [-> | ->]; reflexivity
    end.
Qed.

(** ** The entitlement poll of [EntitlementsProvider] does not *)

(** A poll whose request is rejected leaves the state as it was. *)
Lemma fetchEntitlements_rejected_keeps_state w s :
  (forall r, w r = Rejected) ->
  snd (EntitlementsContext.fetchEntitlements w s) = s.
Proof.
  intros Hw. unfold EntitlementsContext.fetchEntitlements, fetch. rewrite Hw. reflexivity.
Qed.

(** C2, on the code.  After a poll that granted "Deep Dive", a poll
    rejected in transport leaves the granted set in place, and a poll
    answered 403 with an error body replaces it by [undefined]; a first
    poll that is rejected leaves the initial empty array.  In none of
    the three cases do the consumers see [['Quick Pick']]. *)
Theorem entitlements_poll_does_not_fail_closed :
  let granted : world := fun _ =>
    Responded {| status := 200; statusText := "OK";
                 json := Some (VObj {[ "entitlements" :=
                                         VArr [VStr "Quick Pick"; VStr "Deep Dive"] ]}) |} in
  let down : world := fun _ => Rejected in
  let forbidden : world := fun _ =>
    Responded {| status := 403; statusText := "Forbidden";
                 json := Some (VObj {[ "detail" := VStr "Forbidden" ]}) |} in
  (forall r, Spec.refresh_fails (down r) = true) /\
  (forall r, Spec.refresh_fails (forbidden r) = true) /\
  EntitlementsContext.entitlements
    (EntitlementsContext.polls [granted; down] EntitlementsContext.initial)
    = VArr [VStr "Quick Pick"; VStr "Deep Dive"] /\
  EntitlementsContext.entitlements
    (EntitlementsContext.polls [granted; forbidden] EntitlementsContext.initial)
    = VUndefined /\
  EntitlementsContext.entitlements
    (EntitlementsContext.polls [down] EntitlementsContext.initial)
    = VArr [] /\
  PredictionForm.allowedModes_after None down (VArr [VStr "Quick Pick"; VStr "Deep Dive"])
    = Spec.default_entitlements.
Proof.
  intros granted down forbidden.
  repeat split; try (intros r); vm_compute; reflexivity.
Qed.

(** ** The history view *)

(** The view shows the records in the order [getUserPredictions]
    returns them. *)
Lemma exposed_history_is_fetch_order w token l :
  result (getUserPredictions w token) = inr l ->
  UserPredictions.exposed_history (Some {| Auth.idToken := Some token |}) w = l.
Proof.
  intros H. unfold UserPredictions.exposed_history, UserPredictions.effect_fetchPredictions.
  cbn [Auth.getIdToken Auth.idToken]. rewrite bind_ret_l.
  destruct (getUserPredictions w token) as [t [e | l']] eqn:E; simpl in H; [discriminate |].
  injection H as ->. reflexivity.
Qed.

Section SortDescending.

Variable Date_getTime : value -> option Z.

Abbreviation sortCompare := (UserPredictions.sortCompare Date_getTime).
Abbreviation insert := (UserPredictions.insert Date_getTime).
Abbreviation sort := (UserPredictions.sort Date_getTime).
Abbreviation date_of := (UserPredictions.date_of Date_getTime).
Abbreviation not_older := (Spec.not_older Date_getTime).

Lemma insert_permutation x l : Permutation (x :: l) (insert x l).
Proof.
  induction l as [| y l IH]; simpl; [reflexivity |].
  destruct (sortCompare x y <=? 0); [reflexivity |].
  rewrite perm_swap. apply perm_skip, IH.
Qed.

Lemma sort_permutation l : Permutation l (sort l).
Proof.
  induction l as [| x l IH]; simpl; [reflexivity |].
  rewrite <- insert_permutation. apply perm_skip, IH.
Qed.

Lemma not_older_transitive a b c : not_older a b -> not_older b c -> not_older a c.
Proof.
  unfold Spec.not_older.
  destruct (date_of a), (date_of b), (date_of c); try tauto. lia.
Qed.

Lemma compare_not_older x y :
  is_Some (date_of x) -> is_Some (date_of y) ->
  if sortCompare x y <=? 0 then not_older x y else not_older y x.
Proof.
  intros [dx Hx] [dy Hy].
  unfold UserPredictions.sortCompare, UserPredictions.compareFn, Spec.not_older.
  rewrite Hx, Hy. simpl.
  destruct (dy - dx <=? 0) eqn:E; [apply Z.leb_le in E | apply Z.leb_gt in E]; lia.
Qed.

Lemma insert_HdRel y x l :
  not_older y x -> HdRel not_older y l -> HdRel not_older y (insert x l).
Proof.
  intros Hyx Hl. destruct l as [| z l]; simpl; [constructor; exact Hyx |].
  destruct (sortCompare x z <=? 0); constructor; [exact Hyx |].
  inversion Hl; assumption.
Qed.

Lemma insert_Sorted x l :
  is_Some (date_of x) -> Forall (fun p => is_Some (date_of p)) l ->
  Sorted not_older l -> Sorted not_older (insert x l).
Proof.
  intros Hx Hl Hs. induction l as [| y l IH]; simpl.
  - repeat constructor.
  - inversion Hl as [| ? ? Hy Hl']; subst. inversion Hs as [| ? ? Hs' Hhd]; subst.
    pose proof (compare_not_older x y Hx Hy) as Hc.
    destruct (sortCompare x y <=? 0).
    + constructor; [exact Hs | constructor; exact Hc].
    + constructor; [apply IH; assumption | apply insert_HdRel; assumption].
Qed.

Lemma Forall_insert (P : PredictionResult -> Prop) x l :
  P x -> Forall P l -> Forall P (insert x l).
Proof.
  intros Hx Hl. induction Hl as [| y l Hy Hl IH]; simpl.
  - repeat constructor; exact Hx.
  - destruct (sortCompare x y <=? 0); repeat constructor; assumption.
Qed.

(** The sort of the component-level [fetchPredictions] puts the
    records newest first, when every record has a time: a missing
    timestamp counts as 0, an unparseable one has no time. *)
Lemma sort_newest_first l :
  Forall (fun p => is_Some (date_of p)) l ->
  StronglySorted not_older (sort l) /\ Permutation l (sort l).
Proof.
  intros Hl. split; [| apply sort_permutation].
  apply Sorted_StronglySorted; [intros a b c; apply not_older_transitive |].
  induction Hl as [| x l Hx Hl IH]; simpl; [constructor |].
  apply insert_Sorted; [exact Hx | | exact IH].
  clear IH Hx. induction Hl as [| y l Hy Hl IH]; simpl; [constructor |].
  apply Forall_insert; assumption.
Qed.

End SortDescending.

(** C4, on the code.  The user service returns an older record before
    a newer one.  The view shows them in that order, oldest first: the
    effect that loads the history stores the list as fetched.  The
    component-level [fetchPredictions], which nothing calls, would have
    shown the newer record first. *)
Theorem history_is_exposed_unsorted :
  let older : value :=
    VObj {[ "predicted_winner" := VStr "Home Win"; "prob_home_win" := VNum 0.7;
            "model" := VStr "Quick Pick"; "prediction_id" := VNum 1;
            "prediction_timestamp" := VStr "2025-03-01T10:00:00Z" ]} in
  let newer : value :=
    VObj {[ "predicted_winner" := VStr "Away Win"; "prob_away_win" := VNum 0.6;
            "model" := VStr "Quick Pick"; "prediction_id" := VNum 2;
            "prediction_timestamp" := VStr "2025-03-08T10:00:00Z" ]} in
  let w : world := fun _ =>
    Responded {| status := 200; statusText := "OK"; json := Some (VArr [older; newer]) |} in
  let user := {| Auth.idToken := Some "token" |} in
  let Date_getTime (v : value) : option Z :=
    if is_str v "2025-03-01T10:00:00Z" then Some 1740823200000
    else if is_str v "2025-03-08T10:00:00Z" then Some 1741428000000
    else None in
  map prediction_id (UserPredictions.exposed_history (Some user) w)
    = [VNum 1; VNum 2] /\
  map (UserPredictions.date_of Date_getTime) (UserPredictions.exposed_history (Some user) w)
    = [Some 1740823200000; Some 1741428000000] /\
  map prediction_id
      (UserPredictions.predictions
         (snd (UserPredictions.fetchPredictions Date_getTime (Some user) w
                 UserPredictions.initial)))
    = [VNum 2; VNum 1].
Proof.
  intros older newer w user Date_getTime.
  repeat split; vm_compute; reflexivity.
Qed.

(** * Further properties of the modelled code *)

(** ** [getPrediction]: one request, and what each answer leads to *)

Lemma result_check_ok onError resp :
  result (check_ok onError resp) =
  if ok resp then inr tt else inl (Behaviour.http_error resp).
Proof.
  unfold check_ok, Behaviour.http_error. destruct (ok resp); [reflexivity |].
  cbn [negb]. rewrite result_bind. cbn [console result snd].
  rewrite result_bind. unfold interpolate.
  destruct (to_string_throws _); reflexivity.
Qed.

(** The header block of lines 24-34. *)
Lemma header_block a idToken :
  match token_given idToken with
  | Some t =>
    console Log (IncludingAuthorizationHeader a) ;;
    ret [("Content-Type", "application/json"); ("Authorization", "Bearer " +:+ t)]
  | None =>
    console Log (NoIdTokenProvided a) ;;
    ret [("Content-Type", "application/json")]
  end
  = ([Console Log (match token_given idToken with
                   | Some _ => IncludingAuthorizationHeader a
                   | None => NoIdTokenProvided a
                   end)],
     inr (match token_given idToken with
          | Some t => [("Content-Type", "application/json");
                       ("Authorization", "Bearer " +:+ t)]
          | None => [("Content-Type", "application/json")]
          end)).
Proof. destruct (token_given idToken); reflexivity. Qed.

(** What [getPrediction] sends and how it ends, for an alias of the
    registry. *)
Lemma getPrediction_run
    (w : world) (payload : PredictionRequestPayload) (a : string)
    (idToken : option string) (model : Models.PredictionModel) :
  Models.getModelByAlias a = Some model ->
  Spec.requests (events (getPrediction w payload a idToken))
  = [Behaviour.prediction_request model payload idToken] /\
  result (getPrediction w payload a idToken) =
  match w (Behaviour.prediction_request model payload idToken) with
  | Rejected => inl FetchFailed
  | Responded resp =>
    if ok resp then
      match json resp with
      | Some rawData => result (normalize rawData a)
      | None => inl SyntaxError
      end
    else inl (Behaviour.http_error resp)
  end.
Proof.
  intros H. split.
  - revert H.
    intros H. unfold getPrediction, Behaviour.prediction_request. rewrite H.
    rewrite header_block.
    rewrite requests_bind. cbn [console events result fst snd Spec.requests flat_map app].
    rewrite requests_try_catch, requests_bind.
    cbn [events result fst snd Spec.requests flat_map app].
    rewrite requests_bind. cbn [fetch events result fst snd Spec.requests flat_map app].
    rewrite result_bind. cbn [result snd]. rewrite result_bind. cbn [fetch result snd].
    destruct (w _) as [| response]; [reflexivity |].
    assert (Hrest :
      Spec.console_only
        (check_ok ApiErrorResponse response ;;
         rawData <- response_json response ;;
         resultData <- normalize rawData a ;;
         console Log (ProcessedPredictionResponse resultData) ;;
         ret resultData)).
    { apply console_only_bind; [apply console_only_check_ok | intros _].
      apply console_only_bind; [apply console_only_response_json | intros rawData].
      apply console_only_bind; [apply normalize_console_only | intros resultData].
      console_only. }
    rewrite (requests_console_only _ Hrest).
    match goal with
    | |- context [match ?r with inl _ => _ | inr _ => _ end] => destruct r
    end; reflexivity.
  - revert H.
    intros H. unfold getPrediction, Behaviour.prediction_request. rewrite H.
    rewrite header_block.
    rewrite result_bind. cbn [console result snd].
    rewrite result_try_catch, result_bind. cbn [result snd].
    rewrite result_bind. cbn [fetch result snd].
    destruct (w _) as [| resp]; [reflexivity |].
    rewrite result_bind, result_check_ok.
    destruct (ok resp); [| reflexivity].
    rewrite result_bind. unfold response_json.
    destruct (json resp) as [rawData |]; [| reflexivity].
    cbn [ret result snd]. rewrite result_bind.
    destruct (result (normalize rawData a)); reflexivity.
Qed.

(** X1.  For an alias of the registry, [getPrediction] sends exactly
    one request, whatever the network answers (no retry): a POST of the
    payload to the endpoint of the model, with a bearer header exactly
    when a non-empty token is given. *)
Theorem getPrediction_sends_one_request
    (w : world) (payload : PredictionRequestPayload) (a : string)
    (idToken : option string) (model : Models.PredictionModel) :
  Models.getModelByAlias a = Some model ->
  Spec.requests (events (getPrediction w payload a idToken))
  = [Behaviour.prediction_request model payload idToken].
Proof.
  intros H. exact (proj1 (getPrediction_run w payload a idToken model H)).
Qed.

Lemma getPrediction_sends_one_request_witness :
  let w : world := fun _ => Rejected in
  let payload :=
    {| team_a := "Broncos"; team_b := "Storm"; match_date_str := "2025-03-01";
       odd_a := Some 1.9%Q; odd_b := None; odds_home_win := Some 1.9%Q;
       odds_away_win := None |} in
  Spec.requests (events (getPrediction w payload "Deep Dive" (Some "")))
  = [ {| url := "http://localhost:8004/predict"; method := "POST";
         headers := [("Content-Type", "application/json")];
         body := Some payload |} ].
Proof.
  intros w payload.
  exact (getPrediction_sends_one_request w payload "Deep Dive" (Some "") _ eq_refl).
Defined.

(** X2.  For an alias of the registry the outcome of [getPrediction] is
    decided by the one response: a transport rejection is rethrown; a
    status outside 200-299 gives the request-failed error with the
    status and the body's [detail] and the body is not normalised; a
    2xx body that is not JSON gives a syntax error; a 2xx JSON body
    gives the outcome of its normalisation. *)
Theorem getPrediction_outcome
    (w : world) (payload : PredictionRequestPayload) (a : string)
    (idToken : option string) (model : Models.PredictionModel) :
  Models.getModelByAlias a = Some model ->
  result (getPrediction w payload a idToken) =
  match w (Behaviour.prediction_request model payload idToken) with
  | Rejected => inl FetchFailed
  | Responded resp =>
    if ok resp then
      match json resp with
      | Some rawData => result (normalize rawData a)
      | None => inl SyntaxError
      end
    else inl (Behaviour.http_error resp)
  end.
Proof.
  intros H. exact (proj2 (getPrediction_run w payload a idToken model H)).
Qed.

Lemma getPrediction_outcome_witness :
  let resp :=
    {| status := 422; statusText := "Unprocessable Entity";
       json := Some (VObj {[ "predicted_winner" := VStr "Home Win";
                             "prob_home_win" := VNum 0.7 ]}) |} in
  let w : world := fun _ => Responded resp in
  let payload :=
    {| team_a := "Broncos"; team_b := "Storm"; match_date_str := "2025-03-01";
       odd_a := None; odd_b := None; odds_home_win := None; odds_away_win := None |} in
  result (getPrediction w payload "Quick Pick" None)
  = inl (ApiRequestFailed 422 "Unprocessable Entity" (VStr "No additional details.")).
Proof.
  intros resp w payload.
  exact (getPrediction_outcome w payload "Quick Pick" None _ eq_refl).
Defined.

Lemma logs_result_last_bind {A : Type} (m : M A) (k : A -> M PredictionResult) :
  (forall a, Behaviour.logs_result_last (k a)) ->
  Behaviour.logs_result_last (bind m k).
Proof.
  intros Hk t res. destruct m as [t1 [e | a]]; simpl; [discriminate |].
  destruct (k a) as [t2 r] eqn:E. intros [= <- ->].
  destruct (Hk a t2 res E) as [t' ->]. exists (t1 ++ t'). apply app_assoc.
Qed.

(** X3.  For an alias of the registry, a failure of [getPrediction],
    whatever its cause, is written to [console.error] as the last line
    and rethrown unchanged; a success ends with the log of the result
    that is returned. *)
Theorem getPrediction_logs_then_rethrows
    (w : world) (payload : PredictionRequestPayload) (a : string)
    (idToken : option string) (model : Models.PredictionModel) :
  Models.getModelByAlias a = Some model ->
  match result (getPrediction w payload a idToken) with
  | inl e =>
    exists t, events (getPrediction w payload a idToken)
              = t ++ [Console Error (NetworkOrApiCallError e)]
  | inr res =>
    exists t, events (getPrediction w payload a idToken)
              = t ++ [Console Log (ProcessedPredictionResponse res)]
  end.
Proof.
  intros H. unfold getPrediction. rewrite H.
  match goal with
  | |- context [try_catch ?body ?h] =>
    assert (Hlast : Behaviour.logs_result_last body);
    [| destruct body as [t [e | res]] eqn:E]
  end.
  - apply logs_result_last_bind. intros hdrs.
    apply logs_result_last_bind. intros response.
    apply logs_result_last_bind. intros _.
    apply logs_result_last_bind. intros rawData.
    apply logs_result_last_bind. intros resultData.
    intros t res [= <- <-]. exists []. reflexivity.
  - cbn. eexists (_ :: t). reflexivity.
  - destruct (Hlast t res eq_refl) as [t' ->].
    cbn. eexists (_ :: t'). reflexivity.
Qed.

Lemma getPrediction_logs_then_rethrows_witness :
  let w : world := fun _ => Responded {| status := 200; statusText := "OK"; json := None |} in
  let payload :=
    {| team_a := "Broncos"; team_b := "Storm"; match_date_str := "2025-03-01";
       odd_a := None; odd_b := None; odds_home_win := None; odds_away_win := None |} in
  result (getPrediction w payload "Stacked" None) = inl SyntaxError /\
  exists t, events (getPrediction w payload "Stacked" None)
            = t ++ [Console Error (NetworkOrApiCallError SyntaxError)].
Proof.
  intros w payload. split; [reflexivity |].
  exact (getPrediction_logs_then_rethrows w payload "Stacked" None _ eq_refl).
Defined.

(** ** The normalisation on unusual bodies *)

(** X4.  A body that is neither an object nor [null], such as an array,
    a string or a number, does not make the normalisation fail: the
    result is the default one, with no winner, confidence 0 and the
    requested alias, and the two warnings are logged. *)
Theorem normalize_non_object_body (raw : value) (requested : string) :
  nullish raw = false ->
  (forall o, raw <> VObj o) ->
  normalize raw requested =
  ([Console Warn (CouldNotDetermineConfidence VUndefined);
    Console Warn MissingAliasAndName],
   inr (Behaviour.default_result requested)).
Proof.
  intros Hn Ho. destruct raw; try discriminate Hn; try reflexivity.
  exfalso. exact (Ho _ eq_refl).
Qed.

Lemma normalize_non_object_body_witness :
  normalize (VArr [VObj {[ "predicted_winner" := VStr "Home Win";
                           "prob_home_win" := VNum 0.7 ]}]) "Stacked"
  = ([Console Warn (CouldNotDetermineConfidence VUndefined);
      Console Warn MissingAliasAndName],
     inr (Behaviour.default_result "Stacked")).
Proof.
  apply normalize_non_object_body; [reflexivity | discriminate].
Defined.

(** X5.  The normalisation reads fourteen properties of the body and
    no other: setting or changing any other property, such as
    [predicted_margin], changes neither the result nor the log. *)
Theorem normalize_ignores_unread_fields
    (o : gmap string value) (k : string) (v : value) (requested : string) :
  ~ In k Behaviour.read_fields ->
  normalize (VObj (<[k := v]> o)) requested = normalize (VObj o) requested.
Proof.
  intros Hk. unfold Behaviour.read_fields in Hk. simpl in Hk.
  unfold normalize, determine_confidence, finalAlias, get, prop.
  cbn [nullish].
  repeat match goal with
  | |- context [<[k := v]> o !! ?j] =>
    rewrite (lookup_insert_ne o k j v) by (intros ->; tauto)
  end.
  reflexivity.
Qed.

Lemma normalize_ignores_unread_fields_witness :
  let o : gmap string value :=
    {[ "predicted_winner" := VStr "Home"; "prob_home_rl" := VNum 0.8 ]} in
  normalize (VObj (<["predicted_margin" := VNum 12]> o)) "Edge Finder"
  = normalize (VObj o) "Edge Finder".
Proof.
  intros o. apply normalize_ignores_unread_fields.
  simpl. intros H. repeat (destruct H as [H | H]; [discriminate H |]). exact H.
Defined.

(** ** [getUserPredictions]: the whole history or nothing *)

(** How [getUserPredictions] ends, by the response to its request. *)
Lemma getUserPredictions_result (w : world) (idToken : string) :
  result (getUserPredictions w idToken) =
  match w (Behaviour.history_request idToken) with
  | Rejected => inl FetchFailed
  | Responded resp =>
    if ok resp then
      match json resp with
      | Some (VArr l) => result (mapM processedPrediction l)
      | Some _ => inl TypeError
      | None => inl SyntaxError
      end
    else inl (Behaviour.http_error resp)
  end.
Proof.
  unfold getUserPredictions, Behaviour.history_request.
  rewrite result_bind. cbn [console result snd].
  rewrite result_try_catch, result_bind. cbn [fetch result snd].
  destruct (w _) as [| resp]; [reflexivity |].
  rewrite result_bind, result_check_ok.
  destruct (ok resp); [| reflexivity].
  rewrite result_bind. unfold response_json.
  destruct (json resp) as [rawPredictions |]; [| reflexivity].
  cbn [ret result snd]. rewrite result_bind.
  destruct rawPredictions; try reflexivity.
  cbn [array_map]. destruct (result (mapM processedPrediction l)); reflexivity.
Qed.

Lemma console_only_mapM {A B : Type} (f : A -> M B) (l : list A) :
  (forall x, Spec.console_only (f x)) -> Spec.console_only (mapM f l).
Proof.
  intros Hf. induction l as [| x l IH]; cbn [mapM]; [apply console_only_ret |].
  apply console_only_bind; [apply Hf | intros y].
  apply console_only_bind; [exact IH | intros ys]. apply console_only_ret.
Qed.

Lemma console_only_processedPrediction raw : Spec.console_only (processedPrediction raw).
Proof. unfold processedPrediction. console_only. Qed.

(** X6.  [getUserPredictions] sends exactly one request, a GET of
    [/users/me/predictions] with the bearer token, and its outcome is
    decided by the one response: a transport rejection is rethrown, a
    status outside 200-299 gives the request-failed error, a 2xx body
    that is not JSON a syntax error, a 2xx JSON body that is not an
    array (an object wrapping the list, [null]) a TypeError, and an
    array the outcome of mapping the callback over it. *)
Theorem getUserPredictions_outcome (w : world) (idToken : string) :
  Spec.requests (events (getUserPredictions w idToken))
  = [Behaviour.history_request idToken] /\
  result (getUserPredictions w idToken) =
  match w (Behaviour.history_request idToken) with
  | Rejected => inl FetchFailed
  | Responded resp =>
    if ok resp then
      match json resp with
      | Some (VArr l) => result (mapM processedPrediction l)
      | Some _ => inl TypeError
      | None => inl SyntaxError
      end
    else inl (Behaviour.http_error resp)
  end.
Proof.
  split; [| apply getUserPredictions_result].
  unfold getUserPredictions, Behaviour.history_request.
  rewrite requests_bind. cbn [console events result fst snd Spec.requests flat_map app].
  rewrite requests_try_catch, requests_bind.
  cbn [fetch events result fst snd Spec.requests flat_map app].
  rewrite result_bind. cbn [fetch result snd].
  destruct (w _) as [| response]; [reflexivity |].
  assert (Hrest :
    Spec.console_only
      (check_ok ApiErrorResponseUserPredictions response ;;
       rawPredictions <- response_json response ;;
       processedPredictions <- array_map processedPrediction rawPredictions ;;
       console Log (FetchedUserPredictions (length processedPredictions)) ;;
       ret processedPredictions)).
  { apply console_only_bind; [apply console_only_check_ok | intros _].
    apply console_only_bind; [apply console_only_response_json | intros rawPredictions].
    apply console_only_bind; [| intros processedPredictions; console_only].
    destruct rawPredictions; cbn [array_map]; try apply console_only_throw.
    apply console_only_mapM, console_only_processedPrediction. }
  rewrite (requests_console_only _ Hrest).
  match goal with
  | |- context [match ?r with inl _ => _ | inr _ => _ end] => destruct r
  end; reflexivity.
Qed.

Lemma result_mapM_cons {A B : Type} (f : A -> M B) x l :
  result (mapM f (x :: l)) =
  match result (f x) with
  | inl e => inl e
  | inr y =>
    match result (mapM f l) with
    | inl e => inl e
    | inr ys => inr (y :: ys)
    end
  end.
Proof.
  cbn [mapM]. rewrite result_bind. destruct (result (f x)); [reflexivity |].
  rewrite result_bind. destruct (result (mapM f l)); reflexivity.
Qed.

Lemma processedPrediction_result o :
  to_string_throws (prop (VObj o) "prediction_id") = false ->
  exists r,
    result (processedPrediction (VObj o)) = inr r /\
    prediction_id r = prop (VObj o) "prediction_id" /\
    prediction_timestamp r = prop (VObj o) "prediction_timestamp" /\
    model_alias r = prop (VObj o) "model".
Proof.
  intros Hid. pose proof (processedPrediction_first_match o) as Hp. cbv zeta in Hp.
  rewrite Hp. destruct (List.find _ _).
  - eexists. split; [reflexivity |]. repeat split.
  - rewrite Hid. eexists. split; [reflexivity |]. repeat split.
Qed.

(** X7.  When the user service answers 2xx with an array of record
    objects, [getUserPredictions] returns one result per record, in the
    order of the array, each with the [prediction_id], timestamp and
    stored [model] of its record: nothing is dropped, added or
    reordered. *)
Theorem getUserPredictions_keeps_order
    (w : world) (idToken : string) (resp : response) (l : list value) :
  w (Behaviour.history_request idToken) = Responded resp ->
  ok resp = true ->
  json resp = Some (VArr l) ->
  Forall (fun raw => exists o, raw = VObj o /\
                     to_string_throws (prop raw "prediction_id") = false) l ->
  exists rs,
    result (getUserPredictions w idToken) = inr rs /\
    Forall2 (fun raw r =>
               prediction_id r = prop raw "prediction_id" /\
               prediction_timestamp r = prop raw "prediction_timestamp" /\
               model_alias r = prop raw "model") l rs.
Proof.
  intros Hw Hok Hjson Hl. rewrite getUserPredictions_result, Hw, Hok, Hjson.
  clear Hw Hok Hjson. induction Hl as [| raw l (o & -> & Hid) _ (rs & Hrs & Hall)].
  - exists []. split; [reflexivity | constructor].
  - destruct (processedPrediction_result o Hid) as (r & Hr & Hfields).
    exists (r :: rs). rewrite result_mapM_cons, Hr, Hrs.
    split; [reflexivity | constructor; assumption].
Qed.

Lemma getUserPredictions_keeps_order_witness :
  let first : value :=
    VObj {[ "predicted_winner" := VStr "Draw"; "prediction_id" := VNum 4;
            "model" := VStr "Stacked" ]} in
  let second : value :=
    VObj {[ "predicted_winner" := VStr "Home"; "prob_home_rl" := VNum 0.8;
            "prediction_id" := VNum 3; "model" := VStr "Edge Finder" ]} in
  let resp := {| status := 200; statusText := "OK"; json := Some (VArr [first; second]) |} in
  let w : world := fun _ => Responded resp in
  exists rs,
    result (getUserPredictions w "token") = inr rs /\
    map prediction_id rs = [VNum 4; VNum 3].
Proof.
  intros first second resp w.
  destruct (getUserPredictions_keeps_order w "token" resp [first; second])
    as (rs & Hrs & Hall); [reflexivity | reflexivity | reflexivity | |].
  - repeat constructor; eexists; (split; [reflexivity | reflexivity]).
  - exists rs. split; [exact Hrs |].
    inversion Hall as [| ? r1 ? rs1 (H1 & _) Hall1]; subst.
    inversion Hall1 as [| ? r2 ? rs2 (H2 & _) Hall2]; subst.
    inversion Hall2; subst. simpl. rewrite H1, H2. reflexivity.
Defined.

Lemma processedPrediction_raises_TypeError raw e :
  result (processedPrediction raw) = inl e -> e = TypeError.
Proof.
  unfold processedPrediction, get, interpolate.
  destruct (nullish raw); [intros [= <-]; reflexivity |].
  rewrite bind_ret_l.
  repeat match goal with
  | |- context [if ?b then _ else _] =>
    lazymatch b with
    | context [if _ then _ else _] => fail
    | _ => destruct b
    end
  end; cbn; congruence.
Qed.

Lemma mapM_raises {A B : Type} (f : A -> M B) (l : list A) (x : A) :
  (forall y e, result (f y) = inl e -> e = TypeError) ->
  In x l ->
  result (f x) = inl TypeError ->
  result (mapM f l) = inl TypeError.
Proof.
  intros Hty Hin Hx. induction l as [| y l IH]; [contradiction |].
  rewrite result_mapM_cons. destruct (result (f y)) as [e | b] eqn:Ey.
  - rewrite (Hty y e Ey). reflexivity.
  - destruct Hin as [-> | Hin]; [congruence |].
    rewrite (IH Hin). reflexivity.
Qed.

(** X8.  One bad record hides the whole history: when the array
    holds a [null] record, or a record matched by no rule whose
    [prediction_id] has no string form, [getUserPredictions] rejects
    with a TypeError and returns none of the other records. *)
Theorem getUserPredictions_one_bad_record
    (w : world) (idToken : string) (resp : response) (l : list value) (bad : value) :
  w (Behaviour.history_request idToken) = Responded resp ->
  ok resp = true ->
  json resp = Some (VArr l) ->
  In bad l ->
  result (processedPrediction bad) = inl TypeError ->
  result (getUserPredictions w idToken) = inl TypeError.
Proof.
  intros Hw Hok Hjson Hin Hbad. rewrite getUserPredictions_result, Hw, Hok, Hjson.
  exact (mapM_raises _ _ _ processedPrediction_raises_TypeError Hin Hbad).
Qed.

Lemma getUserPredictions_one_bad_record_witness :
  let good : value :=
    VObj {[ "predicted_winner" := VStr "Home"; "prob_home_rl" := VNum 0.8;
            "prediction_id" := VNum 3; "model" := VStr "Edge Finder" ]} in
  let resp := {| status := 200; statusText := "OK";
                 json := Some (VArr [good; VNull; good]) |} in
  let w : world := fun _ => Responded resp in
  result (processedPrediction VNull) = inl TypeError /\
  result (getUserPredictions w "token") = inl TypeError.
Proof.
  intros good resp w. split; [reflexivity |].
  apply (getUserPredictions_one_bad_record w "token" resp [good; VNull; good] VNull);
    try reflexivity.
  right; left; reflexivity.
Defined.

(** ** The allowed modes of [PredictionForm] and the buttons they enable *)

(** What [fetchAllowedModes] passes to [setAllowedModes]. *)
Lemma fetchAllowedModes_result (currentUser : option Auth.user) (w : world) :
  let answer (token : option string) : value :=
    match w (Behaviour.modes_request token) with
    | Rejected => PredictionForm.QUICK_PICK_ONLY
    | Responded resp =>
      if ok resp then default PredictionForm.QUICK_PICK_ONLY (json resp)
      else PredictionForm.QUICK_PICK_ONLY
    end in
  result (PredictionForm.fetchAllowedModes currentUser w) =
  inr (match currentUser with
       | None => answer None
       | Some u =>
         match Auth.idToken u with
         | Some t => answer (Some t)
         | None => PredictionForm.QUICK_PICK_ONLY
         end
       end).
Proof.
  cbv zeta. unfold PredictionForm.fetchAllowedModes, Behaviour.modes_request.
  rewrite result_try_catch, result_bind.
  assert (Hfetch : forall token,
    match
      result (response <- fetch w {| url := "http://localhost:8007/users/me/modes";
                                     method := "GET";
                                     headers := match token_given token with
                                                | Some t => [("Authorization", "Bearer " +:+ t)]
                                                | None => []
                                                end;
                                     body := None |} ;;
              if ok response then modes <- response_json response ;; ret modes
              else if status response =? 403 then
                console Warn NotAuthorizedForPremiumModes ;;
                ret PredictionForm.QUICK_PICK_ONLY
              else
                console Error (FailedToFetchAllowedModes (status response)) ;;
                ret PredictionForm.QUICK_PICK_ONLY)
    with
    | inl e => result (console Error (ErrorFetchingAllowedModes e) ;;
                       ret PredictionForm.QUICK_PICK_ONLY)
    | inr a => inr a
    end
    = inr match w {| url := "http://localhost:8007/users/me/modes";
                     method := "GET";
                     headers := match token_given token with
                                | Some t => [("Authorization", "Bearer " +:+ t)]
                                | None => []
                                end;
                     body := None |} with
          | Rejected => PredictionForm.QUICK_PICK_ONLY
          | Responded resp =>
            if ok resp then default PredictionForm.QUICK_PICK_ONLY (json resp)
            else PredictionForm.QUICK_PICK_ONLY
          end).
  { intros token. rewrite result_bind. cbn [fetch result snd].
    destruct (w _) as [| resp]; [reflexivity |].
    destruct (ok resp).
    - unfold response_json. destruct (json resp); reflexivity.
    - destruct (status resp =? 403); reflexivity. }
  destruct currentUser as [[[t |]] |];
    cbn [Auth.getIdToken Auth.idToken bind ret throw result snd];
    [apply (Hfetch (Some t)) | reflexivity | apply (Hfetch None)].
Qed.

(** X9.  [fetchAllowedModes] never raises, and sets the modes to the
    JSON body of a 2xx answer or else to [['Quick Pick']]: it falls
    back on a token that cannot be had (no request is sent then), on a
    transport rejection, on every status outside 200-299 and on a body
    that is not JSON.  The modes held before play no part, and at most
    one request is sent. *)
Theorem fetchAllowedModes_outcome (currentUser : option Auth.user) (w : world) :
  let answer (token : option string) : value :=
    match w (Behaviour.modes_request token) with
    | Rejected => PredictionForm.QUICK_PICK_ONLY
    | Responded resp =>
      if ok resp then default PredictionForm.QUICK_PICK_ONLY (json resp)
      else PredictionForm.QUICK_PICK_ONLY
    end in
  result (PredictionForm.fetchAllowedModes currentUser w) =
  inr (match currentUser with
       | None => answer None
       | Some u =>
         match Auth.idToken u with
         | Some t => answer (Some t)
         | None => PredictionForm.QUICK_PICK_ONLY
         end
       end) /\
  Spec.requests (events (PredictionForm.fetchAllowedModes currentUser w)) =
  match currentUser with
  | None => [Behaviour.modes_request None]
  | Some u =>
    match Auth.idToken u with
    | Some t => [Behaviour.modes_request (Some t)]
    | None => []
    end
  end.
Proof.
  cbv zeta. split; [apply fetchAllowedModes_result |].
  unfold PredictionForm.fetchAllowedModes, Behaviour.modes_request.
  rewrite requests_try_catch, requests_bind, result_bind.
  assert (Hrest : forall response : response,
    Spec.console_only
      (if ok response then modes <- response_json response ;; ret modes
       else if status response =? 403 then
         console Warn NotAuthorizedForPremiumModes ;;
         ret PredictionForm.QUICK_PICK_ONLY
       else
         console Error (FailedToFetchAllowedModes (status response)) ;;
         ret PredictionForm.QUICK_PICK_ONLY)).
  { intros response. destruct (ok response).
    - apply console_only_bind; [apply console_only_response_json | intros; console_only].
    - console_only. }
  destruct currentUser as [[[t |]] |];
    cbn [Auth.getIdToken Auth.idToken bind ret throw events result fst snd
         Spec.requests flat_map app];
    try reflexivity;
    rewrite requests_bind, result_bind;
    cbn [fetch events result fst snd Spec.requests flat_map app];
    (destruct (w _) as [| response]; [reflexivity |]);
    rewrite (requests_console_only _ (Hrest response));
    match goal with
    | |- context [match ?r with inl _ => _ | inr _ => _ end] => destruct r
    end; reflexivity.
Qed.

Lemma QUICK_PICK_ONLY_enables_one :
  UI.enabled_aliases PredictionForm.QUICK_PICK_ONLY = inr ["Quick Pick"].
Proof. reflexivity. Qed.

(** X10.  After a refresh that finds the network down or gets any
    status outside 200-299, the only model whose button is enabled is
    "Quick Pick": the premium models are locked, and so is the free
    model "Form Cruncher". *)
Theorem failed_refresh_enables_quick_pick_only
    (currentUser : option Auth.user) (w : world) (allowedModes : value) :
  (forall r, match w r with Rejected => True | Responded resp => ok resp = false end) ->
  UI.enabled_aliases (PredictionForm.allowedModes_after currentUser w allowedModes)
  = inr ["Quick Pick"].
Proof.
  intros Hw. unfold PredictionForm.allowedModes_after.
  rewrite fetchAllowedModes_result.
  assert (Ha : forall token,
    match w (Behaviour.modes_request token) with
    | Rejected => PredictionForm.QUICK_PICK_ONLY
    | Responded resp =>
      if ok resp then default PredictionForm.QUICK_PICK_ONLY (json resp)
      else PredictionForm.QUICK_PICK_ONLY
    end = PredictionForm.QUICK_PICK_ONLY).
  { intros token. specialize (Hw (Behaviour.modes_request token)).
    destruct (w _) as [| resp]; [reflexivity |]. rewrite Hw. reflexivity. }
  destruct currentUser as [[[t |]] |]; cbn [Auth.idToken]; rewrite ?Ha;
    apply QUICK_PICK_ONLY_enables_one.
Qed.

Lemma failed_refresh_enables_quick_pick_only_witness :
  let w : world := fun _ =>
    Responded {| status := 500; statusText := "Internal Server Error";
                 json := Some (VArr [VStr "Quick Pick"; VStr "Deep Dive"]) |} in
  UI.enabled_aliases
    (PredictionForm.allowedModes_after (Some {| Auth.idToken := Some "token" |}) w
       (VArr [VStr "Quick Pick"; VStr "Deep Dive"]))
  = inr ["Quick Pick"].
Proof.
  intros w. apply failed_refresh_enables_quick_pick_only.
  intros r. reflexivity.
Defined.

(** X11.  A 2xx answer is stored as it is.  When its body is not an
    array or a string, for one an object that wraps the list, the model
    list cannot be drawn: [allowedModes.includes] raises a TypeError. *)
Theorem unvalidated_modes_break_the_model_list
    (w : world) (resp : response) (body : value) (allowedModes : value) :
  w (Behaviour.modes_request None) = Responded resp ->
  ok resp = true ->
  json resp = Some body ->
  (forall l, body <> VArr l) ->
  (forall s, body <> VStr s) ->
  PredictionForm.allowedModes_after None w allowedModes = body /\
  UI.enabled_aliases body = inl TypeError.
Proof.
  intros Hw Hok Hjson Harr Hstr. split.
  - unfold PredictionForm.allowedModes_after. rewrite fetchAllowedModes_result.
    rewrite Hw, Hok, Hjson. reflexivity.
  - destruct body; try reflexivity.
    + exfalso. exact (Hstr _ eq_refl).
    + exfalso. exact (Harr _ eq_refl).
Qed.

Lemma unvalidated_modes_break_the_model_list_witness :
  let body : value := VObj {[ "modes" := VArr [VStr "Quick Pick"; VStr "Deep Dive"] ]} in
  let w : world := fun _ =>
    Responded {| status := 200; statusText := "OK"; json := Some body |} in
  PredictionForm.allowedModes_after None w PredictionForm.initialAllowedModes = body /\
  UI.enabled_aliases body = inl TypeError.
Proof.
  intros body w.
  apply (unvalidated_modes_break_the_model_list w _ body _ eq_refl eq_refl eq_refl);
    discriminate.
Defined.

Lemma model_options_array l models :
  UI.model_options (VArr l) models =
  inr (map (fun model =>
              (model, negb (existsb (fun v => is_str v (Models.alias model)) l)))
           models).
Proof.
  induction models as [| model rest IH]; [reflexivity |].
  cbn [UI.model_options UI.includes map]. rewrite IH. reflexivity.
Qed.

(** X12.  With an array of modes, the enabled buttons are exactly the
    models of the registry whose alias is a string of the array: an
    entry of the array that is no alias of the registry enables
    nothing, and the buttons keep the order of the registry. *)
Theorem enabled_iff_listed (l : list value) :
  exists enabled,
    UI.enabled_aliases (VArr l) = inr enabled /\
    enabled = List.filter (fun a => existsb (fun v => is_str v a) l)
                          (map Models.alias Models.PREDICTION_MODELS) /\
    forall a, In a enabled <->
              In a (map Models.alias Models.PREDICTION_MODELS) /\ In (VStr a) l.
Proof.
  eexists. split; [| split].
  - unfold UI.enabled_aliases. rewrite model_options_array. reflexivity.
  - generalize Models.PREDICTION_MODELS. intros models.
    induction models as [| model rest IH]; [reflexivity |].
    cbn [map List.filter fst snd]. rewrite negb_involutive.
    destruct (existsb _ l); cbn [map]; rewrite IH; reflexivity.
  - intros a.
    assert (Hfilter :
      map (fun o : Models.PredictionModel * bool => Models.alias (fst o))
          (List.filter (fun o => negb (snd o))
             (map (fun model =>
                     (model, negb (existsb (fun v => is_str v (Models.alias model)) l)))
                  Models.PREDICTION_MODELS))
      = List.filter (fun a => existsb (fun v => is_str v a) l)
                    (map Models.alias Models.PREDICTION_MODELS)).
    { generalize Models.PREDICTION_MODELS. intros models.
      induction models as [| model rest IH]; [reflexivity |].
      cbn [map List.filter fst snd]. rewrite negb_involutive.
      destruct (existsb _ l); cbn [map]; rewrite IH; reflexivity. }
    rewrite Hfilter, filter_In, existsb_exists. split.
    + intros (Hin & v & Hv & Hs). apply is_str_true in Hs. subst v. split; assumption.
    + intros (Hin & Hl). split; [exact Hin |]. exists (VStr a). split; [exact Hl |].
      simpl. apply String.eqb_refl.
Qed.

(** ** The registry *)

(** X13.  The alias is a key of the registry: looking up the alias of
    a registered model gives that very model, so no model is hidden
    behind another with the same alias, and a lookup that succeeds
    gives a registered model with the alias asked for. *)
Theorem getModelByAlias_round_trip (a : string) (model : Models.PredictionModel) :
  Models.getModelByAlias a = Some model <->
  In model Models.PREDICTION_MODELS /\ Models.alias model = a.
Proof.
  split.
  - unfold Models.getModelByAlias. intros H. apply find_some in H as [Hin E].
    apply String.eqb_eq in E. split; assumption.
  - intros [Hin <-]. unfold Models.PREDICTION_MODELS in Hin. simpl in Hin.
    repeat (destruct Hin as [<- | Hin]; [reflexivity |]). contradiction.
Qed.

(** ** The entitlement poll: the last poll that resolved decides *)

Lemma fetchEntitlements_step w s :
  snd (EntitlementsContext.fetchEntitlements w s) =
  match Behaviour.poll_resolves w with
  | Some ents => {| EntitlementsContext.entitlements := ents;
                    EntitlementsContext.loading := false |}
  | None => s
  end.
Proof.
  unfold EntitlementsContext.fetchEntitlements, Behaviour.poll_resolves, fetch.
  destruct (w _) as [| r]; [reflexivity |].
  cbn [bind]. unfold response_json.
  destruct (json r) as [data |]; [| reflexivity].
  cbn [bind ret]. unfold get. destruct (nullish data); reflexivity.
Qed.

Lemma last_of_cons {A : Type} (x : A) (l : list A) :
  Behaviour.last_of (x :: l) =
  match Behaviour.last_of l with
  | Some y => Some y
  | None => Some x
  end.
Proof.
  unfold Behaviour.last_of. revert x. induction l as [| y l IH]; intros x; [reflexivity |].
  change (List.last (map Some (y :: l)) None
          = match List.last (map Some (y :: l)) None with
            | Some z => Some z
            | None => Some x
            end).
  rewrite (IH y). destruct (List.last (map Some l) None); reflexivity.
Qed.

Lemma settle_last_resolved ws order s :
  EntitlementsContext.settle ws order s =
  match Behaviour.last_of (omap (fun i => ws !! i ≫= Behaviour.poll_resolves) order) with
  | Some ents => {| EntitlementsContext.entitlements := ents;
                    EntitlementsContext.loading := false |}
  | None => s
  end.
Proof.
  unfold EntitlementsContext.settle. revert s.
  induction order as [| i order IH]; intros s; [reflexivity |].
  cbn [fold_left]. rewrite IH.
  change (omap (fun i => ws !! i ≫= Behaviour.poll_resolves) (i :: order))
    with (match ws !! i ≫= Behaviour.poll_resolves with
          | Some ents => ents :: omap (fun i => ws !! i ≫= Behaviour.poll_resolves) order
          | None => omap (fun i => ws !! i ≫= Behaviour.poll_resolves) order
          end).
  destruct (ws !! i) as [w |]; cbn [mbind option_bind]; [| reflexivity].
  rewrite fetchEntitlements_step.
  destruct (Behaviour.poll_resolves w) as [ents |]; [| reflexivity].
  rewrite last_of_cons. destruct (Behaviour.last_of _); reflexivity.
Qed.

(** Chains that settle in the order sent. *)
Lemma settle_in_order pre ws s :
  EntitlementsContext.settle (pre ++ ws) (seq (length pre) (length ws)) s =
  EntitlementsContext.polls ws s.
Proof.
  revert pre s. induction ws as [| w ws IH]; intros pre s; [reflexivity |].
  cbn [length seq]. unfold EntitlementsContext.settle, EntitlementsContext.polls.
  cbn [fold_left]. rewrite list_lookup_middle by reflexivity.
  specialize (IH (pre ++ [w]) (snd (EntitlementsContext.fetchEntitlements w s))).
  rewrite <- app_assoc, length_app in IH. cbn [length app] in IH.
  replace (length pre + 1)%nat with (S (length pre)) in IH by lia.
  exact IH.
Qed.

(** X14.  The state of [EntitlementsProvider] is set by the poll whose
    chain resolved last, which need not be the poll sent last: a chain
    resolves when its answer has a JSON body other than [null],
    whatever its status, and then the entitlements are the
    [entitlements] property of that body, replaced wholesale, and
    [loading] is false.  When no chain has resolved the state is the
    one before, so after a failed first poll [loading] stays true.
    Hence the answer to an earlier poll that arrives after the answer
    to a later one overwrites it.  When the chains settle in the order
    sent, the last poll that resolved decides. *)
Theorem last_settled_poll_wins
    (ws : list world) (order : list nat) (s : EntitlementsContext.state) :
  EntitlementsContext.settle ws order s =
    match Behaviour.last_of (omap (fun i => ws !! i ≫= Behaviour.poll_resolves) order) with
    | Some ents => {| EntitlementsContext.entitlements := ents;
                      EntitlementsContext.loading := false |}
    | None => s
    end /\
  (forall i j earlier later,
     (i < j)%nat ->
     ws !! i ≫= Behaviour.poll_resolves = Some earlier ->
     ws !! j ≫= Behaviour.poll_resolves = Some later ->
     EntitlementsContext.entitlements (EntitlementsContext.settle ws [j; i] s) = earlier) /\
  EntitlementsContext.polls ws s = EntitlementsContext.settle ws (seq 0 (length ws)) s /\
  EntitlementsContext.polls ws s =
    match Behaviour.last_of (omap Behaviour.poll_resolves ws) with
    | Some ents => {| EntitlementsContext.entitlements := ents;
                      EntitlementsContext.loading := false |}
    | None => s
    end.
Proof.
  split; [apply settle_last_resolved | split; [| split]].
  - intros i j earlier later _ Hi Hj. rewrite settle_last_resolved.
    change (omap (fun i => ws !! i ≫= Behaviour.poll_resolves) [j; i])
      with (match ws !! j ≫= Behaviour.poll_resolves with
            | Some e => e :: match ws !! i ≫= Behaviour.poll_resolves with
                             | Some e' => [e']
                             | None => []
                             end
            | None => match ws !! i ≫= Behaviour.poll_resolves with
                      | Some e' => [e']
                      | None => []
                      end
            end).
    rewrite Hi, Hj. reflexivity.
  - symmetry. exact (settle_in_order [] ws s).
  - unfold EntitlementsContext.polls. revert s.
    induction ws as [| w ws IH]; intros s; [reflexivity |].
    cbn [fold_left]. rewrite IH, fetchEntitlements_step.
    change (omap Behaviour.poll_resolves (w :: ws))
      with (match Behaviour.poll_resolves w with
            | Some ents => ents :: omap Behaviour.poll_resolves ws
            | None => omap Behaviour.poll_resolves ws
            end).
    destruct (Behaviour.poll_resolves w) as [ents |]; [| reflexivity].
    rewrite last_of_cons. destruct (Behaviour.last_of _); reflexivity.
Qed.

(** A poll that grants "Deep Dive" is followed, after a downgrade, by
    one that grants "Quick Pick" only.  When the first answer arrives
    after the second, the consumers end with the grant of the first. *)
Lemma last_settled_poll_wins_witness :
  let answer (ents : list value) : world := fun _ =>
    Responded {| status := 200; statusText := "OK";
                 json := Some (VObj {[ "entitlements" := VArr ents ]}) |} in
  let granted := answer [VStr "Quick Pick"; VStr "Deep Dive"] in
  let downgraded := answer [VStr "Quick Pick"] in
  EntitlementsContext.entitlements
    (EntitlementsContext.settle [granted; downgraded] [1; 0]%nat EntitlementsContext.initial)
    = VArr [VStr "Quick Pick"; VStr "Deep Dive"] /\
  EntitlementsContext.entitlements
    (EntitlementsContext.polls [granted; downgraded] EntitlementsContext.initial)
    = VArr [VStr "Quick Pick"].
Proof.
  intros answer granted downgraded. split.
  - apply (proj1 (proj2 (last_settled_poll_wins [granted; downgraded] [1; 0]%nat
                           EntitlementsContext.initial)) 0%nat 1%nat
             (VArr [VStr "Quick Pick"; VStr "Deep Dive"]) (VArr [VStr "Quick Pick"]));
      [lia | reflexivity | reflexivity].
  - vm_compute. reflexivity.
Defined.

(** ** The history view: how the effect settles *)

(** X15.  When the effect that loads the history has settled,
    [loading] is false.  Signed out, it sends no request and asks to
    log in.  On any failure, of the token or of the fetch, the error is
    set and the list shown before is kept; on success the error is
    cleared and the list is the one fetched. *)
Theorem effect_fetchPredictions_settles
    (currentUser : option Auth.user) (w : world) (s : UserPredictions.state) :
  let run := UserPredictions.effect_fetchPredictions currentUser w s in
  UserPredictions.loading (snd run) = false /\
  match currentUser with
  | None =>
    Spec.requests (fst run) = [] /\
    UserPredictions.error (snd run) = UserPredictions.PleaseLogIn /\
    UserPredictions.predictions (snd run) = UserPredictions.predictions s
  | Some u =>
    match Auth.idToken u with
    | None =>
      Spec.requests (fst run) = [] /\
      UserPredictions.error (snd run) = UserPredictions.Failed TokenError /\
      UserPredictions.predictions (snd run) = UserPredictions.predictions s
    | Some token =>
      match result (getUserPredictions w token) with
      | inl e =>
        UserPredictions.error (snd run) = UserPredictions.Failed e /\
        UserPredictions.predictions (snd run) = UserPredictions.predictions s
      | inr l =>
        UserPredictions.error (snd run) = UserPredictions.NoError /\
        UserPredictions.predictions (snd run) = l
      end
    end
  end.
Proof.
  cbv zeta. unfold UserPredictions.effect_fetchPredictions.
  destruct currentUser as [[[token |]] |]; cbn [Auth.getIdToken Auth.idToken].
  - rewrite bind_ret_l.
    destruct (getUserPredictions w token) as [t [e | l]]; cbn; repeat split.
  - cbn. repeat split.
  - cbn. repeat split.
Qed.

(** ** The sort of the component-level [fetchPredictions] *)

(** X16.  The sort returns a permutation of the list in which every
    record is at least as recent as all records after it, provided each
    record has a time: a record without timestamp counts as time 0. *)
Theorem sort_is_newest_first
    (Date_getTime : value -> option Z) (l : list PredictionResult) :
  Forall (fun p => is_Some (UserPredictions.date_of Date_getTime p)) l ->
  StronglySorted (Spec.not_older Date_getTime) (UserPredictions.sort Date_getTime l) /\
  Permutation l (UserPredictions.sort Date_getTime l).
Proof. apply sort_newest_first. Qed.

Lemma sort_is_newest_first_witness :
  let Date_getTime (v : value) : option Z :=
    if is_str v "2025-03-01T10:00:00Z" then Some 1740823200000
    else if is_str v "2025-03-08T10:00:00Z" then Some 1741428000000
    else None in
  let record (id : Q) (stamp : value) : PredictionResult :=
    {| predicted_winner := VStr "Home Win"; confidence := VNum 0.7;
       margin := VUndefined; model_alias := VStr "Quick Pick";
       prediction_id := VNum id; match_date := VUndefined;
       home_team_name := VUndefined; away_team_name := VUndefined;
       prediction_timestamp := stamp |} in
  let l := [record 1%Q VUndefined; record 2%Q (VStr "2025-03-01T10:00:00Z");
            record 3%Q (VStr "2025-03-08T10:00:00Z")] in
  map prediction_id (UserPredictions.sort Date_getTime l) = [VNum 3; VNum 2; VNum 1] /\
  StronglySorted (Spec.not_older Date_getTime) (UserPredictions.sort Date_getTime l) /\
  Permutation l (UserPredictions.sort Date_getTime l).
Proof.
  intros Date_getTime record l. split; [vm_compute; reflexivity |].
  apply (sort_is_newest_first Date_getTime l).
  repeat constructor; vm_compute; eexists; reflexivity.
Defined.

(** X17.  The sort is stable where it need not move anything: a list
    that is already newest first, ties included, comes back unchanged,
    so sorting twice is sorting once. *)
Theorem sort_keeps_sorted_list
    (Date_getTime : value -> option Z) (l : list PredictionResult) :
  Sorted (Spec.not_older Date_getTime) l ->
  UserPredictions.sort Date_getTime l = l.
Proof.
  induction 1 as [| x l Hs IH Hhd]; [reflexivity |].
  cbn [UserPredictions.sort foldr]. fold (UserPredictions.sort Date_getTime l).
  rewrite IH. destruct Hhd as [| y l' Hxy]; [reflexivity |].
  cbn [UserPredictions.insert].
  unfold Spec.not_older in Hxy.
  unfold UserPredictions.sortCompare, UserPredictions.compareFn.
  destruct (UserPredictions.date_of Date_getTime x) as [dx |]; [| contradiction].
  destruct (UserPredictions.date_of Date_getTime y) as [dy |]; [| contradiction].
  change (default 0 (Some (dy - dx))) with (dy - dx).
  destruct (dy - dx <=? 0) eqn:E; [reflexivity |].
  apply Z.leb_gt in E. lia.
Qed.

Lemma sort_keeps_sorted_list_witness :
  let Date_getTime (v : value) : option Z :=
    if is_str v "2025-03-08T10:00:00Z" then Some 1741428000000 else None in
  let record (id : Q) : PredictionResult :=
    {| predicted_winner := VStr "Home Win"; confidence := VNum 0.7;
       margin := VUndefined; model_alias := VStr "Quick Pick";
       prediction_id := VNum id; match_date := VUndefined;
       home_team_name := VUndefined; away_team_name := VUndefined;
       prediction_timestamp := VStr "2025-03-08T10:00:00Z" |} in
  UserPredictions.sort Date_getTime [record 1%Q; record 2%Q] = [record 1%Q; record 2%Q].
Proof.
  intros Date_getTime record. apply sort_keeps_sorted_list.
  repeat constructor; vm_compute; discriminate.
Defined.

(** ** The view layer: rating a prediction *)

Lemma lift_interpolate v :
  UI.lift (interpolate v) =
  if to_string_throws v then UI.uthrow TypeError else UI.uret tt.
Proof. unfold UI.lift, interpolate. destruct (to_string_throws v); reflexivity. Qed.

Lemma snd_ubind {A B : Type} (m : UI.U A) (k : A -> UI.U B) :
  snd (UI.ubind m k) = match snd m with inl e => inl e | inr a => snd (k a) end.
Proof. destruct m as [t [e | a]]; cbn; [reflexivity |]. destruct (k a). reflexivity. Qed.

Lemma posts_ubind {A B : Type} (m : UI.U A) (k : A -> UI.U B) :
  Behaviour.posts (fst (UI.ubind m k)) =
  Behaviour.posts (fst m)
  ++ match snd m with inr a => Behaviour.posts (fst (k a)) | inl _ => [] end.
Proof.
  destruct m as [t [e | a]]; cbn [UI.ubind fst snd].
  - rewrite app_nil_r. reflexivity.
  - destruct (k a) as [t' r]. cbn [fst]. unfold Behaviour.posts. apply flat_map_app.
Qed.

Lemma snd_utry_catch {A : Type} (m : UI.U A) (h : exn -> UI.U A) :
  snd (UI.utry_catch m h) = match snd m with inl e => snd (h e) | inr a => inr a end.
Proof. destruct m as [t [e | a]]; cbn; [| reflexivity]. destruct (h e). reflexivity. Qed.

Lemma posts_utry_catch {A : Type} (m : UI.U A) (h : exn -> UI.U A) :
  Behaviour.posts (fst (UI.utry_catch m h)) =
  Behaviour.posts (fst m)
  ++ match snd m with inl e => Behaviour.posts (fst (h e)) | inr _ => [] end.
Proof.
  destruct m as [t [e | a]]; cbn [UI.utry_catch fst snd].
  - destruct (h e) as [t' r]. cbn [fst]. unfold Behaviour.posts. apply flat_map_app.
  - rewrite app_nil_r. reflexivity.
Qed.

(** How [submitPredictionRating] ends, by the answer to its POST. *)
Lemma submitPredictionRating_result
    (w : UI.post_world) (predictionId : value) (rating : Q) (idToken : string) :
  to_string_throws predictionId = false ->
  snd (UI.submitPredictionRating w predictionId rating idToken) =
    match w (Behaviour.rating_request predictionId rating idToken) with
    | Rejected => inl FetchFailed
    | Responded resp => if ok resp then inr tt else inl (Behaviour.http_error resp)
    end.
Proof.
  intros Hid.
  unfold UI.submitPredictionRating, Behaviour.rating_request, Behaviour.http_error.
  rewrite (lift_interpolate predictionId), Hid.
  rewrite snd_ubind. cbn [UI.uconsole snd].
  rewrite snd_utry_catch, snd_ubind. cbn [UI.post snd].
  destruct (w _) as [| resp]; [reflexivity |].
  destruct (ok resp); cbn [negb]; [reflexivity |].
  rewrite lift_interpolate.
  match goal with |- context [to_string_throws ?d] => destruct (to_string_throws d) end;
    reflexivity.
Qed.

(** X18.  [submitPredictionRating] sends exactly one POST, carrying the
    prediction id and the rating with the bearer token, and whether it
    resolves is decided by the status alone: on 2xx it resolves without
    reading the body, on any other status it rejects with the
    request-failed error, on a transport rejection with that
    rejection. *)
Theorem submitPredictionRating_outcome
    (w : UI.post_world) (predictionId : value) (rating : Q) (idToken : string) :
  to_string_throws predictionId = false ->
  let run := UI.submitPredictionRating w predictionId rating idToken in
  Behaviour.posts (fst run) = [Behaviour.rating_request predictionId rating idToken] /\
  snd run =
    match w (Behaviour.rating_request predictionId rating idToken) with
    | Rejected => inl FetchFailed
    | Responded resp => if ok resp then inr tt else inl (Behaviour.http_error resp)
    end.
Proof.
  intros Hid. cbv zeta. split; [| exact (submitPredictionRating_result w _ _ _ Hid)].
  unfold UI.submitPredictionRating, Behaviour.rating_request.
  rewrite (lift_interpolate predictionId), Hid.
  rewrite posts_ubind. cbn [UI.uconsole fst snd Behaviour.posts flat_map app].
  rewrite posts_utry_catch, posts_ubind. cbn [UI.post fst snd Behaviour.posts flat_map app].
  rewrite snd_ubind. cbn [UI.post snd].
  destruct (w _) as [| resp]; [reflexivity |].
  destruct (ok resp); cbn [negb]; [reflexivity |].
  rewrite lift_interpolate.
  match goal with |- context [to_string_throws ?d] => destruct (to_string_throws d) end;
    reflexivity.
Qed.

Lemma submitPredictionRating_outcome_witness :
  let w : UI.post_world := fun _ =>
    Responded {| status := 204; statusText := "No Content"; json := None |} in
  let run := UI.submitPredictionRating w (VNum 17) 4 "token" in
  Behaviour.posts (fst run)
    = [ {| UI.jurl := "http://localhost:8007/users/feedback/rating";
           UI.jmethod := "POST";
           UI.jheaders := [("Authorization", "Bearer token");
                           ("Content-Type", "application/json")];
           UI.jbody := [("prediction_id", VNum 17); ("rating_value", VNum 4)] |} ] /\
  snd run = inr tt.
Proof.
  intros w. exact (submitPredictionRating_outcome w (VNum 17) 4 "token" eq_refl).
Defined.

(** X19.  Without a signed-in user, or for a result whose
    [prediction_id] is missing, [null], 0 or empty, [handleRatingSubmit]
    sends nothing and leaves the rating state as it was. *)
Theorem rating_needs_user_and_prediction_id
    (currentUser : option Auth.user) (predictionResult : option PredictionResult)
    (w : UI.post_world) (value : Q) (s : UI.rating_state) :
  currentUser = None \/ truthy (UI.prediction_id_of predictionResult) = false ->
  let run := UI.handleRatingSubmit currentUser predictionResult w value s in
  Behaviour.posts (fst run) = [] /\ snd run = s.
Proof.
  intros H. cbv zeta. unfold UI.handleRatingSubmit.
  destruct currentUser as [u |].
  - destruct H as [H | H]; [discriminate |]. rewrite H. split; reflexivity.
  - split; reflexivity.
Qed.

Lemma rating_needs_user_and_prediction_id_witness :
  let w : UI.post_world := fun _ =>
    Responded {| status := 200; statusText := "OK"; json := None |} in
  let shown :=
    {| predicted_winner := VStr "Home Win"; confidence := VNum 0.7;
       margin := VUndefined; model_alias := VStr "Quick Pick";
       prediction_id := VNum 0; match_date := VUndefined;
       home_team_name := VUndefined; away_team_name := VUndefined;
       prediction_timestamp := VUndefined |} in
  let run := UI.handleRatingSubmit (Some {| Auth.idToken := Some "token" |})
               (Some shown) w 5 UI.initial_rating in
  Behaviour.posts (fst run) = [] /\ snd run = UI.initial_rating.
Proof.
  intros w shown.
  apply (rating_needs_user_and_prediction_id _ (Some shown) w 5 UI.initial_rating).
  right. reflexivity.
Defined.

(** X20.  For a signed-in user and a result with a prediction id,
    [handleRatingSubmit] ends with [isRatingLoading] false and the
    stars at the value clicked, stored or not; [ratingSubmitted]
    becomes true exactly when the token was had and the POST was
    answered 2xx, and otherwise stays as it was. *)
Theorem rating_submitted_only_on_2xx
    (u : Auth.user) (predictionResult : option PredictionResult)
    (w : UI.post_world) (value : Q) (s : UI.rating_state) :
  truthy (UI.prediction_id_of predictionResult) = true ->
  to_string_throws (UI.prediction_id_of predictionResult) = false ->
  let run := UI.handleRatingSubmit (Some u) predictionResult w value s in
  let stored :=
    match Auth.idToken u with
    | Some token =>
      match w (Behaviour.rating_request (UI.prediction_id_of predictionResult)
                 value token) with
      | Responded resp => ok resp
      | Rejected => false
      end
    | None => false
    end in
  UI.ratingValue (snd run) = value /\
  UI.isRatingLoading (snd run) = false /\
  UI.ratingSubmitted (snd run) = (stored || UI.ratingSubmitted s).
Proof.
  intros Hid Hprint. cbv zeta. unfold UI.handleRatingSubmit.
  rewrite Hid. cbn [negb].
  destruct u as [[token |]]; cbn [Auth.getIdToken Auth.idToken].
  - pose proof (submitPredictionRating_result w _ value token Hprint) as Hres.
    match goal with
    | |- context [UI.ubind ?m ?k] =>
      pose proof (snd_ubind m k) as Hsnd; destruct (UI.ubind m k) as [t r]
    end.
    cbn [UI.lift ret result snd] in Hsnd. rewrite Hres in Hsnd. cbn [snd] in Hsnd. subst r.
    destruct (w _) as [| resp]; [repeat split |].
    destruct (ok resp); repeat split.
  - cbn. repeat split.
Qed.

Lemma rating_submitted_only_on_2xx_witness :
  let w : UI.post_world := fun _ =>
    Responded {| status := 500; statusText := "Internal Server Error"; json := None |} in
  let shown :=
    {| predicted_winner := VStr "Home Win"; confidence := VNum 0.7;
       margin := VUndefined; model_alias := VStr "Quick Pick";
       prediction_id := VNum 17; match_date := VUndefined;
       home_team_name := VUndefined; away_team_name := VUndefined;
       prediction_timestamp := VUndefined |} in
  let run := UI.handleRatingSubmit (Some {| Auth.idToken := Some "token" |})
               (Some shown) w 5 UI.initial_rating in
  UI.ratingValue (snd run) = 5%Q /\
  UI.isRatingLoading (snd run) = false /\
  UI.ratingSubmitted (snd run) = false.
Proof.
  intros w shown.
  exact (rating_submitted_only_on_2xx {| Auth.idToken := Some "token" |}
           (Some shown) w 5 UI.initial_rating eq_refl eq_refl).
Defined.

(** ** The view layer: from the form to the request *)

Lemma handleFormSubmit_submitted format currentUser values t payload modelAlias idToken :
  UI.handleFormSubmit format currentUser values = (t, Some (payload, modelAlias, idToken)) ->
  exists home away date,
    UI.given (UI.homeTeam values) = Some home /\
    UI.given (UI.awayTeam values) = Some away /\
    UI.given (UI.matchDate values) = Some date /\
    modelAlias = default Models.DEFAULT_MODEL_ALIAS (UI.given (UI.selectedModelAlias values)) /\
    payload =
      {| team_a := home; team_b := away; match_date_str := format date;
         odd_a := UI.odd_for modelAlias (UI.homeOdds values);
         odd_b := UI.odd_for modelAlias (UI.awayOdds values);
         odds_home_win := UI.odds_or_null (UI.homeOdds values);
         odds_away_win := UI.odds_or_null (UI.awayOdds values) |} /\
    idToken = match currentUser with Some u => Auth.idToken u | None => None end.
Proof.
  unfold UI.handleFormSubmit. intros H.
  destruct (UI.given (UI.homeTeam values)) as [home |]; [| discriminate H].
  destruct (UI.given (UI.awayTeam values)) as [away |]; [| discriminate H].
  destruct (UI.given (UI.matchDate values)) as [date |]; [| discriminate H].
  exists home, away, date.
  assert (Ha : match UI.given (UI.selectedModelAlias values) with
               | Some a => a
               | None => Models.DEFAULT_MODEL_ALIAS
               end
               = default Models.DEFAULT_MODEL_ALIAS (UI.given (UI.selectedModelAlias values)))
    by (destruct (UI.given _); reflexivity).
  rewrite Ha in H.
  destruct currentUser as [[[token |]] |]; cbn [Auth.idToken] in *;
    injection H as _ <- <- <-; repeat split; reflexivity.
Qed.

(** X21.  The form submits exactly when both teams and the date are
    filled in (an empty string counts as not filled in).  It then
    submits under the selected alias, or under "Quick Pick" when none is
    selected, and with the user's token when it can be had: a token
    that cannot be had does not stop the submission, which goes out
    with no token. *)
Theorem form_submits_iff_complete
    (format : string -> string) (currentUser : option Auth.user)
    (values : UI.PredictionFormData) :
  let run := UI.handleFormSubmit format currentUser values in
  (is_Some (snd run) <->
   is_Some (UI.given (UI.homeTeam values)) /\
   is_Some (UI.given (UI.awayTeam values)) /\
   is_Some (UI.given (UI.matchDate values))) /\
  forall payload modelAlias idToken,
    snd run = Some (payload, modelAlias, idToken) ->
    UI.given (UI.homeTeam values) = Some (team_a payload) /\
    UI.given (UI.awayTeam values) = Some (team_b payload) /\
    modelAlias = default "Quick Pick" (UI.given (UI.selectedModelAlias values)) /\
    modelAlias <> "" /\
    idToken = match currentUser with Some u => Auth.idToken u | None => None end.
Proof.
  cbv zeta. split.
  - unfold UI.handleFormSubmit.
    destruct (UI.given (UI.homeTeam values)) as [home |];
      destruct (UI.given (UI.awayTeam values)) as [away |];
      destruct (UI.given (UI.matchDate values)) as [date |];
      try (split; [intros [x Hx]; discriminate Hx | intros (H1 & H2 & H3);
                   first [destruct H1 as [? H1]; discriminate H1
                         | destruct H2 as [? H2]; discriminate H2
                         | destruct H3 as [? H3]; discriminate H3]]).
    split; [intros _; repeat split; eexists; reflexivity |].
    intros _. destruct currentUser as [[[token |]] |]; eexists; reflexivity.
  - intros payload modelAlias idToken H.
    destruct (UI.handleFormSubmit format currentUser values) as [t r] eqn:E.
    cbn [snd] in H. subst r.
    destruct (handleFormSubmit_submitted _ _ _ _ _ _ _ E)
      as (home & away & date & Hh & Ha & _ & Halias & Hp & Htok).
    subst payload. cbn [team_a team_b]. repeat split; try assumption.
    rewrite Halias. unfold UI.given.
    destruct (UI.selectedModelAlias values) as [a |]; [| discriminate].
    destruct (String.eqb a "") eqn:Ea; [intros H'; discriminate H' |].
    change (default Models.DEFAULT_MODEL_ALIAS (Some a)) with a.
    intros ->. discriminate Ea.
Qed.

(** X22.  In a submission for "Deep Dive" the odds are never sent as
    [odd_a] and [odd_b], though they still go out as [odds_home_win] and
    [odds_away_win].  For every other model [odd_a] and [odd_b] carry
    the same numbers as [odds_home_win] and [odds_away_win], and an
    empty or NaN field is sent under neither of the [odd] names. *)
Theorem deep_dive_gets_no_odd_fields
    (format : string -> string) (currentUser : option Auth.user)
    (values : UI.PredictionFormData) (t : list UI.event)
    (payload : PredictionRequestPayload) (modelAlias : string) (idToken : option string) :
  UI.handleFormSubmit format currentUser values = (t, Some (payload, modelAlias, idToken)) ->
  odds_home_win payload = UI.odds_or_null (UI.homeOdds values) /\
  odds_away_win payload = UI.odds_or_null (UI.awayOdds values) /\
  (modelAlias = "Deep Dive" -> odd_a payload = None /\ odd_b payload = None) /\
  (modelAlias <> "Deep Dive" ->
   odd_a payload = odds_home_win payload /\ odd_b payload = odds_away_win payload).
Proof.
  intros H.
  destruct (handleFormSubmit_submitted _ _ _ _ _ _ _ H)
    as (home & away & date & _ & _ & _ & _ & -> & _).
  cbn [odd_a odd_b odds_home_win odds_away_win]. unfold UI.odd_for.
  split; [reflexivity |]. split; [reflexivity |]. split.
  - intros ->. split; reflexivity.
  - intros Hne. destruct (String.eqb modelAlias "Deep Dive") eqn:E.
    + apply String.eqb_eq in E. contradiction.
    + split; reflexivity.
Qed.

Lemma deep_dive_gets_no_odd_fields_witness :
  let values :=
    {| UI.homeTeam := Some "Broncos"; UI.awayTeam := Some "Storm";
       UI.homeOdds := UI.Num 1.9; UI.awayOdds := UI.NaN;
       UI.matchDate := Some "2025-03-01"; UI.selectedModelAlias := Some "Deep Dive" |} in
  let payload :=
    {| team_a := "Broncos"; team_b := "Storm"; match_date_str := "2025-03-01";
       odd_a := None; odd_b := None; odds_home_win := Some 1.9%Q;
       odds_away_win := None |} in
  UI.handleFormSubmit (fun d => d) None values = ([], Some (payload, "Deep Dive", None)) /\
  odd_a payload = None /\ odd_b payload = None.
Proof.
  intros values payload. split; [reflexivity |].
  apply (deep_dive_gets_no_odd_fields (fun d => d) None values [] payload "Deep Dive" None);
    reflexivity.
Defined.

Lemma service_requests_map t :
  Behaviour.service_requests (map UI.Service t) = Spec.requests t.
Proof.
  unfold Behaviour.service_requests, Spec.requests.
  induction t as [| e t IH]; [reflexivity |].
  cbn [map flat_map]. rewrite IH. destruct e; reflexivity.
Qed.

Lemma service_requests_app t t' :
  Behaviour.service_requests (t ++ t')
  = Behaviour.service_requests t ++ Behaviour.service_requests t'.
Proof. apply flat_map_app. Qed.

(** X23.  A complete form whose alias resolves in the registry leads
    to exactly one prediction request, to the endpoint of the model
    found and with the payload and token of the form.  When all has
    settled [loading] is false and either the result is set and the
    error cleared, or the error is set and the result cleared; the
    error is never the unknown-model one. *)
Theorem form_submission_reaches_the_model
    (format : string -> string) (currentUser : option Auth.user)
    (values : UI.PredictionFormData) (w : world) (s : UI.predict_state)
    (t : list UI.event) (payload : PredictionRequestPayload) (modelAlias : string)
    (idToken : option string) (model : Models.PredictionModel) :
  UI.handleFormSubmit format currentUser values = (t, Some (payload, modelAlias, idToken)) ->
  Models.getModelByAlias modelAlias = Some model ->
  let run := UI.submit format currentUser values w s in
  Behaviour.service_requests (fst run)
    = [Behaviour.prediction_request model payload idToken] /\
  UI.loading (snd run) = false /\
  match result (getPrediction w payload modelAlias idToken) with
  | inr res => UI.error (snd run) = None /\ UI.predictionResult (snd run) = Some res
  | inl e =>
    UI.error (snd run) = Some e /\ UI.predictionResult (snd run) = None /\
    e <> ConfigurationError modelAlias
  end.
Proof.
  intros Hform Hmodel. cbv zeta. unfold UI.submit. rewrite Hform.
  pose proof (getPrediction_run w payload modelAlias idToken model Hmodel) as [Hreq Hout].
  assert (Hform_events : Behaviour.service_requests t = []).
  { unfold UI.handleFormSubmit in Hform.
    destruct (UI.given (UI.homeTeam values)); [| discriminate Hform].
    destruct (UI.given (UI.awayTeam values)); [| discriminate Hform].
    destruct (UI.given (UI.matchDate values)); [| discriminate Hform].
    destruct currentUser as [[[token |]] |]; cbn [Auth.idToken] in Hform;
      injection Hform as <- _ _ _; reflexivity. }
  unfold UI.handlePredict.
  destruct (getPrediction w payload modelAlias idToken) as [t' [e | res]];
    cbn [events result fst snd] in *.
  - rewrite !service_requests_app, service_requests_map, Hform_events, Hreq.
    repeat split.
    intros ->. destruct (w _) as [| resp]; [discriminate Hout |].
    destruct (ok resp).
    + destruct (json resp) as [rawData |]; [| discriminate Hout].
      symmetry in Hout. apply normalize_raises_only_TypeError in Hout. discriminate Hout.
    + unfold Behaviour.http_error in Hout.
      destruct (to_string_throws _); discriminate Hout.
  - rewrite service_requests_app, service_requests_map, Hform_events, Hreq.
    repeat split.
Qed.

(** A form with no model selected goes to the endpoint of "Quick
    Pick", here without token because it cannot be had. *)
Lemma form_submission_reaches_the_model_witness :
  let values :=
    {| UI.homeTeam := Some "Broncos"; UI.awayTeam := Some "Storm";
       UI.homeOdds := UI.Num 1.9; UI.awayOdds := UI.Blank;
       UI.matchDate := Some "2025-03-01"; UI.selectedModelAlias := None |} in
  let w : world := fun _ =>
    Responded {| status := 200; statusText := "OK";
                 json := Some (VObj {[ "predicted_winner" := VStr "Home Win";
                                       "prob_home_win" := VNum 0.7 ]}) |} in
  let run := UI.submit (fun d => d) (Some {| Auth.idToken := None |}) values w
               UI.initial_predict in
  Behaviour.service_requests (fst run)
    = [ {| url := "http://localhost:8001/predict"; method := "POST";
           headers := [("Content-Type", "application/json")];
           body := Some {| team_a := "Broncos"; team_b := "Storm";
                           match_date_str := "2025-03-01";
                           odd_a := Some 1.9%Q; odd_b := None;
                           odds_home_win := Some 1.9%Q; odds_away_win := None |} |} ] /\
  UI.loading (snd run) = false /\
  UI.error (snd run) = None.
Proof.
  intros values w.
  destruct (form_submission_reaches_the_model (fun d => d)
              (Some {| Auth.idToken := None |}) values w UI.initial_predict
              _ _ "Quick Pick" None _ eq_refl eq_refl) as (Hreq & Hload & Hres).
  split; [exact Hreq |]. split; [exact Hload |].
  vm_compute in Hres. destruct Hres as [Herr _]. exact Herr.
Defined.

Lemma form_submits_iff_complete_witness :
  let values :=
    {| UI.homeTeam := Some "Broncos"; UI.awayTeam := Some "";
       UI.homeOdds := UI.Blank; UI.awayOdds := UI.Blank;
       UI.matchDate := Some "2025-03-01"; UI.selectedModelAlias := Some "Stacked" |} in
  ~ is_Some (snd (UI.handleFormSubmit (fun d => d) None values)).
Proof.
  intros values Hsome.
  apply (proj1 (form_submits_iff_complete (fun d => d) None values)) in Hsome.
  destruct Hsome as (_ & [away Haway] & _). discriminate Haway.
Defined.
